(** * FinDocGPT: iterative analysis controller, RAG grader, registry and job model

    A shallow embedding of the Python back end:
    - [backend/analysis/models.py]                      (job row, [IterativeAnalysis])
    - [backend/services/gemini_validation_service.py]   (grader / web augmenter)
    - [backend/services/iterative_analysis_service.py]  (critique-and-refine controller)
    - [backend/services/cognee_service.py]              (registry, RAG gateway, cache)

    Conventions of the embedding.
    - A Python [str] is a Rocq [string]; the texts handled here are taken to be
      ASCII, so [len] is [String.length] and [lower] maps A-Z to a-z.
    - JSON-like values (what [json.loads] returns, what a [JSONField] holds) are
      [pyval]; a [dict] is an insertion-ordered association list.
    - A float is carried by the rational it denotes ([PFloat]).
    - Code that can raise runs in the error monad [exc]; [try ... except] is
      [try_except].  Calls to the outside (LLM, RAG store, clock, file system)
      are oracles passed in an environment record.
*)

From Stdlib Require Import ZArith QArith Ascii String List Bool Lia.
From stdpp Require Import base option list strings gmap.

Open Scope string_scope.
Open Scope Z_scope.

(* ================================================================== *)
(** * Part I: definitions                                              *)
(* ================================================================== *)

(** ** Exceptions *)

Module Exc.

(** A raised Python exception: its class name and [str(e)]. *)
Record exn := Exn { exn_class : string; exn_msg : string }.

Inductive exc (A : Type) : Type :=
| Ok (a : A)
| Raise (e : exn).
Arguments Ok {A} a.
Arguments Raise {A} e.

Definition bind {A B} (m : exc A) (k : A -> exc B) : exc B :=
  match m with
  | Ok a => k a
  | Raise e => Raise e
  end.

(** [try: body except Exception as e: handler e] *)
Definition try_except {A} (body : exc A) (handler : exn -> exc A) : exc A :=
  match body with
  | Ok a => Ok a
  | Raise e => handler e
  end.

(** [try: body except cls: handler]; other classes propagate. *)
Definition try_except_class {A} (cls : string) (body : exc A) (handler : exn -> exc A) : exc A :=
  match body with
  | Ok a => Ok a
  | Raise e => if String.eqb (exn_class e) cls then handler e else Raise e
  end.

End Exc.
Export Exc.

Notation "'let*' x ':=' m 'in' k" := (Exc.bind m (fun x => k))
  (at level 10, x name, m at level 100, k at level 200).

(** ** Python strings *)

Module PyStr.

Definition lower_ascii (c : ascii) : ascii :=
  let n := nat_of_ascii c in
  if (Nat.leb 65 n && Nat.leb n 90)%bool then ascii_of_nat (n + 32) else c.

(** [s.lower()] *)
Fixpoint lower (s : string) : string :=
  match s with
  | EmptyString => EmptyString
  | String c s' => String (lower_ascii c) (lower s')
  end.

(** [s.startswith(p)] *)
Definition startswith (p s : string) : bool := String.prefix p s.

Fixpoint drop (n : nat) (s : string) : string :=
  match n, s with
  | O, _ => s
  | S n', String _ s' => drop n' s'
  | S _, EmptyString => EmptyString
  end.

(** [s[:n]] *)
Fixpoint take (n : nat) (s : string) : string :=
  match n, s with
  | S n', String c s' => String c (take n' s')
  | _, _ => EmptyString
  end.

(** [needle in s] *)
Fixpoint contains (needle s : string) : bool :=
  if String.prefix needle s then true
  else match s with
       | EmptyString => false
       | String _ s' => contains needle s'
       end.

(** [any(x in s for x in needles)] *)
Definition contains_any (needles : list string) (s : string) : bool :=
  existsb (fun x => contains x s) needles.

(** [s.partition(sep)]: the text before and after the first occurrence. *)
Fixpoint partition (sep s : string) : option (string * string) :=
  if String.prefix sep s then Some (EmptyString, drop (String.length sep) s)
  else match s with
       | EmptyString => None
       | String c s' =>
           match partition sep s' with
           | Some (a, b) => Some (String c a, b)
           | None => None
           end
       end.

(** [s.split(sep)[0]] *)
Definition split_0 (sep s : string) : string :=
  match partition sep s with
  | Some (a, _) => a
  | None => s
  end.

(** [s.split(sep)[1]]; [IndexError] when [sep] does not occur. *)
Definition split_1 (sep s : string) : exc string :=
  match partition sep s with
  | Some (_, b) => Ok (split_0 sep b)
  | None => Raise (Exn "IndexError" "list index out of range")
  end.

Definition is_space (c : ascii) : bool :=
  let n := nat_of_ascii c in
  ((Nat.leb 9 n && Nat.leb n 13) || (Nat.leb 28 n && Nat.leb n 32))%bool.

Fixpoint lstrip (s : string) : string :=
  match s with
  | EmptyString => EmptyString
  | String c s' => if is_space c then lstrip s' else s
  end.

Fixpoint rstrip (s : string) : string :=
  match s with
  | EmptyString => EmptyString
  | String c s' =>
      match rstrip s' with
      | EmptyString => if is_space c then EmptyString else String c EmptyString
      | r => String c r
      end
  end.

(** [s.strip()] *)
Definition strip (s : string) : string := rstrip (lstrip s).

(** ["\n".join(l)] *)
Definition newline : string := String (ascii_of_nat 10) EmptyString.
Definition join (sep : string) (l : list string) : string := String.concat sep l.

(** [a > b] on strings: lexicographic on code points. *)
Definition gtb (a b : string) : bool := String.ltb b a.

End PyStr.

(** ** JSON-like Python values *)

#[warnings="-register-all"]
Inductive pyval : Type :=
| PNone
| PBool (b : bool)
| PInt (n : Z)
| PFloat (q : Q)
| PStr (s : string)
| PList (l : list pyval)
| PDict (d : list (string * pyval)).

(** A Python dict with string keys, in insertion order. *)
Abbreviation dict := (list (string * pyval)).

Module Py.

(** [d.get(k)] as an option; [None] is "key absent". *)
Fixpoint lookup (k : string) (d : dict) : option pyval :=
  match d with
  | [] => None
  | (k', v) :: d' => if String.eqb k k' then Some v else lookup k d'
  end.

(** [k in d] *)
Definition has_key (k : string) (d : dict) : bool :=
  match lookup k d with Some _ => true | None => false end.

(** [d.get(k, default)] *)
Definition get_default (k : string) (default : pyval) (d : dict) : pyval :=
  match lookup k d with Some v => v | None => default end.

(** [d.get(k)] *)
Definition get (k : string) (d : dict) : pyval := get_default k PNone d.

(** [bool(v)] *)
Definition truthy (v : pyval) : bool :=
  match v with
  | PNone => false
  | PBool b => b
  | PInt n => negb (Z.eqb n 0)
  | PFloat q => negb (Qeq_bool q 0)
  | PStr s => negb (String.eqb s "")
  | PList l => match l with [] => false | _ => true end
  | PDict d => match d with [] => false | _ => true end
  end.

(** The number a value denotes ([bool] is a subclass of [int]). *)
Definition as_number (v : pyval) : option Q :=
  match v with
  | PBool b => Some (if b then 1 else 0)%Q
  | PInt n => Some (inject_Z n)
  | PFloat q => Some q
  | _ => None
  end.

(** [v == 'literal'] : only the same [str] is equal to a [str]. *)
Definition eq_str (v : pyval) (s : string) : bool :=
  match v with
  | PStr t => String.eqb t s
  | _ => false
  end.

(** [v == False] : [False], [0] and [0.0] are equal to [False]. *)
Definition eq_False (v : pyval) : bool :=
  match as_number v with
  | Some q => Qeq_bool q 0
  | None => false
  end.

Definition type_error : exn :=
  Exn "TypeError" "comparison not supported between these operands".

(** [a >= b] for numbers and for strings; [TypeError] for the operand
    pairs Python does not order.  (Ordering of lists is not modelled:
    no comparison in the code has a list operand.) *)
Definition ge (a b : pyval) : exc bool :=
  match as_number a, as_number b with
  | Some x, Some y => Ok (Qle_bool y x)
  | _, _ =>
      match a, b with
      | PStr s, PStr t => Ok (negb (String.ltb s t))
      | _, _ => Raise type_error
      end
  end.

(** [a > b] *)
Definition gt (a b : pyval) : exc bool :=
  match as_number a, as_number b with
  | Some x, Some y => Ok (negb (Qle_bool x y))
  | _, _ =>
      match a, b with
      | PStr s, PStr t => Ok (PyStr.gtb s t)
      | _, _ => Raise type_error
      end
  end.

(** [v.get] on something that may not be a dict. *)
Definition as_dict (v : pyval) : exc dict :=
  match v with
  | PDict d => Ok d
  | _ => Raise (Exn "AttributeError" "object has no attribute 'get'")
  end.

End Py.

(** ** The job row: [analysis/models.py], class [IterativeAnalysis] *)

Module Job.

Inductive job_status := PENDING | IN_PROGRESS | COMPLETED | FAILED | CANCELLED.

(** The model's columns.  The six progress columns hold whatever the
    caller assigns (Python does not check on assignment), so they are
    [pyval]; SQL NULL is [PNone]. *)
Record IterativeAnalysis := mkJob {
  query : string;
  company_filter : option string;
  final_analysis : pyval;
  iteration_history : pyval;
  cancel_requested : bool;
  total_iterations : pyval;
  documents_analyzed : pyval;
  rag_queries_executed : pyval;
  final_completeness_score : pyval;
  created_at : string;
  completed_at : option string;
  status : job_status;
  error_message : option string
}.

(** [if key in kwargs: self.<key> = kwargs[key]; updated = True] *)
Definition assign_if_present (key : string) (kwargs : dict)
    (setter : pyval -> IterativeAnalysis -> IterativeAnalysis)
    (st : IterativeAnalysis * bool) : IterativeAnalysis * bool :=
  match Py.lookup key kwargs with
  | Some v => (setter v (fst st), true)
  | None => st
  end.

Definition set_total_iterations v j :=
  mkJob (query j) (company_filter j) (final_analysis j) (iteration_history j)
    (cancel_requested j) v (documents_analyzed j) (rag_queries_executed j)
    (final_completeness_score j) (created_at j) (completed_at j) (status j) (error_message j).
Definition set_documents_analyzed v j :=
  mkJob (query j) (company_filter j) (final_analysis j) (iteration_history j)
    (cancel_requested j) (total_iterations j) v (rag_queries_executed j)
    (final_completeness_score j) (created_at j) (completed_at j) (status j) (error_message j).
Definition set_rag_queries_executed v j :=
  mkJob (query j) (company_filter j) (final_analysis j) (iteration_history j)
    (cancel_requested j) (total_iterations j) (documents_analyzed j) v
    (final_completeness_score j) (created_at j) (completed_at j) (status j) (error_message j).
Definition set_final_completeness_score v j :=
  mkJob (query j) (company_filter j) (final_analysis j) (iteration_history j)
    (cancel_requested j) (total_iterations j) (documents_analyzed j) (rag_queries_executed j)
    v (created_at j) (completed_at j) (status j) (error_message j).
Definition set_iteration_history v j :=
  mkJob (query j) (company_filter j) (final_analysis j) v
    (cancel_requested j) (total_iterations j) (documents_analyzed j) (rag_queries_executed j)
    (final_completeness_score j) (created_at j) (completed_at j) (status j) (error_message j).
Definition set_final_analysis v j :=
  mkJob (query j) (company_filter j) v (iteration_history j)
    (cancel_requested j) (total_iterations j) (documents_analyzed j) (rag_queries_executed j)
    (final_completeness_score j) (created_at j) (completed_at j) (status j) (error_message j).

(** [self.save(update_fields=[...six names...])]: the stored row takes
    the six named columns from the instance and keeps every other column. *)
Definition save_update_fields (self row : IterativeAnalysis) : IterativeAnalysis :=
  mkJob (query row) (company_filter row)
    (final_analysis self) (iteration_history self)
    (cancel_requested row)
    (total_iterations self) (documents_analyzed self) (rag_queries_executed self)
    (final_completeness_score self)
    (created_at row) (completed_at row) (status row) (error_message row).

(** [update_progress(self, **kwargs)].  [self] is the in-memory instance,
    [row] the stored row; the result is the instance and the row after the
    call.  Keys of [kwargs] other than the six tested ones are ignored. *)
Definition update_progress (self row : IterativeAnalysis) (kwargs : dict)
    : IterativeAnalysis * IterativeAnalysis :=
  let st0 := (self, false) in
  let st1 := assign_if_present "total_iterations" kwargs set_total_iterations st0 in
  let st2 := assign_if_present "documents_analyzed" kwargs set_documents_analyzed st1 in
  let st3 := assign_if_present "rag_queries_executed" kwargs set_rag_queries_executed st2 in
  let st4 := assign_if_present "final_completeness_score" kwargs set_final_completeness_score st3 in
  let st5 := assign_if_present "iteration_history" kwargs set_iteration_history st4 in
  let st6 := assign_if_present "final_analysis" kwargs set_final_analysis st5 in
  let '(self', updated) := st6 in
  if updated then (self', save_update_fields self' row) else (self', row).

(** The columns other than the six progress columns. *)
Definition lifecycle_columns (j : IterativeAnalysis) :=
  (query j, company_filter j, cancel_requested j, created_at j, completed_at j,
   status j, error_message j).

(** The loop of [get_latest_iteration_analysis]; [latest_analysis] and
    [latest_timestamp] are the two locals (initially [None]). *)
Fixpoint scan_latest (records : list pyval) (latest_analysis latest_timestamp : pyval)
    : exc pyval :=
  match records with
  | [] => Ok latest_analysis
  | iteration :: rest =>
      let* d := Py.as_dict iteration in
      if (Py.eq_str (Py.get "type" d) "initial_analysis"
          || Py.eq_str (Py.get "type" d) "refinement")%bool
      then
        let timestamp := Py.get "timestamp" d in
        let* newer :=
          (if Py.truthy timestamp
           then (if negb (Py.truthy latest_timestamp) then Ok true
                 else Py.gt timestamp latest_timestamp)
           else Ok false) in
        if (newer : bool)
        then scan_latest rest (Py.get "analysis" d) timestamp
        else scan_latest rest latest_analysis latest_timestamp
      else scan_latest rest latest_analysis latest_timestamp
  end.

(** [for iteration in self.iteration_history]: a list yields its items;
    the other JSON values either are not iterable or yield items without
    [.get], and raise. *)
Definition iterate (v : pyval) : exc (list pyval) :=
  match v with
  | PList l => Ok l
  | PDict d => Ok (map (fun kv => PStr (fst kv)) d)
  | PStr _ => Raise (Exn "AttributeError" "'str' object has no attribute 'get'")
  | _ => Raise (Exn "TypeError" "object is not iterable")
  end.

(** [get_latest_iteration_analysis(self)] *)
Definition get_latest_iteration_analysis (self : IterativeAnalysis) : exc pyval :=
  if negb (Py.truthy (iteration_history self)) then Ok PNone
  else
    let* records := iterate (iteration_history self) in
    scan_latest records PNone PNone.

End Job.

(** ** The grader and web augmenter: [services/gemini_validation_service.py] *)

Module Grader.

(** *** The quality heuristic: [_validate_financial_search_quality] *)

Definition source_tokens : list string :=
  [ "reuters"; "bloomberg"; "wall street journal"; "financial times";
    "sec filing"; "10-k"; "10-q"; "federal reserve"; "treasury";
    "yahoo finance"; "marketwatch"; "source:"; "according to" ].

Definition data_tokens : list string :=
  [ "$"; "%"; "billion"; "million"; "quarter"; "Q1"; "Q2"; "Q3"; "Q4";
    "2024"; "2025"; "fiscal year" ].

Definition timeframe_tokens : list string :=
  [ "as of"; "current"; "latest"; "recent"; "today"; "this year";
    "january"; "february"; "march"; "april"; "may"; "june";
    "july"; "august"; "september"; "october"; "november"; "december" ].

Definition disclaimer_phrases : list string :=
  [ "cannot provide"; "unable to access"; "no information available" ].

Definition has_sources (search_response : string) : bool :=
  PyStr.contains_any source_tokens (PyStr.lower search_response).

Definition has_specific_data (search_response : string) : bool :=
  PyStr.contains_any data_tokens search_response.

Definition has_timeframe (search_response : string) : bool :=
  PyStr.contains_any timeframe_tokens (PyStr.lower search_response).

(** [100 < len(search_response) < 2000] *)
Definition appropriate_length (search_response : string) : bool :=
  (Nat.ltb 100 (String.length search_response)
   && Nat.ltb (String.length search_response) 2000)%bool.

Definition no_disclaimers_only (search_response : string) : bool :=
  negb (Nat.ltb (String.length search_response) 200
        && PyStr.contains_any disclaimer_phrases (PyStr.lower search_response))%bool.

(** [True] counts 1 and [False] 0 in arithmetic. *)
Definition b2q (b : bool) : Q := if b then 1%Q else 0%Q.

(** The dict [quality_indicators], in the order it is written. *)
Definition quality_indicators (search_response : string) : list (string * bool) :=
  [ ("has_sources", has_sources search_response);
    ("has_specific_data", has_specific_data search_response);
    ("has_timeframe", has_timeframe search_response);
    ("appropriate_length", appropriate_length search_response);
    ("no_disclaimers_only", no_disclaimers_only search_response) ].

(** [sum(d.values())] over booleans: [True] counts 1. *)
Definition sum_values (d : list (string * bool)) : Z :=
  fold_right (fun (kv : string * bool) (acc : Z) => (if snd kv then 1 else 0) + acc) 0 d.

(** [d[key]] for a key that is present. *)
Definition indicator (key : string) (d : list (string * bool)) : bool :=
  match find (fun kv => String.eqb (fst kv) key) d with
  | Some kv => snd kv
  | None => false
  end.

(** [sum(quality_indicators.values()) / len(quality_indicators)].
    The float quotient k/5 and the literal 0.6 are both the double
    nearest to the rational, so [>= 0.6] decides as on the rationals. *)
Definition quality_score_of (d : list (string * bool)) : Q :=
  (inject_Z (sum_values d) / inject_Z (Z.of_nat (length d)))%Q.

Definition meets_standards_of (d : list (string * bool)) : bool :=
  (indicator "has_specific_data" d
   && indicator "appropriate_length" d
   && indicator "no_disclaimers_only" d
   && Qle_bool (6 # 10) (quality_score_of d))%bool.

Record quality_assessment := mkQuality {
  quality_score : Q;
  meets_financial_standards : bool;
  indicators : list (string * bool);
  assessment_timestamp : string;
  recommendation : string
}.

(** [_validate_financial_search_quality(search_response, query)].  Nothing
    in its [try] body can raise on a [str], so the [except] branch is not
    reachable and not modelled. *)
Definition _validate_financial_search_quality (now : string) (search_response query : string)
    : quality_assessment :=
  let d := quality_indicators search_response in
  let score := quality_score_of d in
  let meets := meets_standards_of d in
  mkQuality score meets d now (if meets then "use" else "review_carefully").

(** *** The service and its oracles *)

Record service := mkService {
  is_configured : bool;
  validation_enabled : bool
}.

(** Calls to the outside.  [generate_content q r] is the grading
    completion for the rubric prompt built from the query [q] and the
    combined response [r]: it raises, or yields [response.text] (which may
    be [None]).  [search_content q] is the grounded completion.
    [clock n] is the n-th [datetime.now().isoformat()] of one pipeline run. *)
Record env := mkEnv {
  generate_content : string -> string -> exc (option string);
  json_loads : string -> exc pyval;
  search_content : string -> exc (option string);
  clock : nat -> string
}.

(** [response.text.strip()] *)
Definition text_strip (t : option string) : exc string :=
  match t with
  | Some s => Ok (PyStr.strip s)
  | None => Raise (Exn "AttributeError" "'NoneType' object has no attribute 'strip'")
  end.

Definition fence : string := "```".
Definition fence_json : string := "```json".

(** The fenced-code stripping that precedes every [json.loads]. *)
Definition strip_fences (text : string) : exc string :=
  if PyStr.startswith fence_json text then
    let* a := PyStr.split_1 fence_json text in Ok (PyStr.split_0 fence a)
  else if PyStr.startswith fence text then
    let* a := PyStr.split_1 fence text in Ok (PyStr.split_0 fence a)
  else Ok text.

Definition unavailable_result : dict :=
  [ ("validation_available", PBool false);
    ("validation_passed", PBool true);
    ("reasoning", PStr "Gemini validation not available");
    ("confidence_score", PFloat (1 # 2)) ].

Definition parse_failure_result : dict :=
  [ ("validation_available", PBool true);
    ("validation_passed", PBool false);
    ("reasoning", PStr "Failed to parse validation response");
    ("confidence_score", PFloat 0) ].

Definition error_result (e : exn) : dict :=
  [ ("validation_available", PBool false);
    ("validation_passed", PBool true);
    ("reasoning", PStr ("Validation error: " ++ exn_msg e));
    ("confidence_score", PFloat (1 # 2)) ].

(** ["\n".join(rag_response) if rag_response else "No response available"] *)
Definition combined_response (rag_response : list string) : string :=
  match rag_response with
  | [] => "No response available"
  | _ => PyStr.join PyStr.newline rag_response
  end.

(** [validate_rag_response(self, query, rag_response)] *)
Definition validate_rag_response (self : service) (E : env)
    (query : string) (rag_response : list string) : exc dict :=
  if (negb (is_configured self) || negb (validation_enabled self))%bool
  then Ok unavailable_result
  else
    try_except
      (let* response := generate_content E query (combined_response rag_response) in
       let* response_text := text_strip response in
       try_except_class "JSONDecodeError"
         (let* response_text := strip_fences response_text in
          let* validation_result := json_loads E response_text in
          (* the log line calls validation_result.get(...) *)
          let* d := Py.as_dict validation_result in
          Ok d)
         (fun _ => Ok parse_failure_result))
      (fun e => Ok (error_result e)).

Record search_result := mkSearch {
  search_available : bool;
  response : option string;
  reasoning : option string;
  quality : option quality_assessment;
  search_timestamp : option string;
  search_error : option string
}.

(** [search_with_gemini(self, query)] *)
Definition search_with_gemini (self : service) (E : env) (query : string) : search_result :=
  if (negb (is_configured self) || negb (validation_enabled self))%bool
  then mkSearch false None (Some "Gemini search not available") None None None
  else
    match (let* response := search_content E query in text_strip response) with
    | Ok search_response =>
        let quality_check :=
          _validate_financial_search_quality (clock E 0%nat) search_response query in
        mkSearch true (Some search_response) None (Some quality_check)
                 (Some (clock E 1%nat)) None
    | Raise e =>
        mkSearch false None (Some ("Search error: " ++ exn_msg e)) None None
                 (Some (exn_msg e))
    end.

Record pipeline_result := mkPipeline {
  p_query : string;
  original_rag_response : list string;
  validation_result : dict;
  enhanced_response : option search_result;
  final_source : string;
  p_timestamp : string
}.

(** [validate_and_enhance_rag_response(self, query, rag_response)] *)
Definition validate_and_enhance_rag_response (self : service) (E : env)
    (query : string) (rag_response : list string) : exc pipeline_result :=
  let* validation_result := validate_rag_response self E query rag_response in
  let enhanced_response :=
    if Py.eq_False (Py.get_default "validation_passed" (PBool true) validation_result)
    then Some (search_with_gemini self E query)
    else None in
  Ok (mkPipeline query rag_response validation_result enhanced_response
        (match enhanced_response with
         | Some e => if search_available e then "gemini_search" else "rag"
         | None => "rag"
         end)
        (clock E 2%nat)).

Definition warning : string :=
  PyStr.newline ++ PyStr.newline ++
  "[Note: This information from web search may not meet all financial data quality standards. Please verify with authoritative sources.]".

(** [get_final_response(self, validation_result)] *)
Definition get_final_response (r : pipeline_result) : list string :=
  match enhanced_response r with
  | Some e =>
      match search_available e, response e with
      | true, Some text =>
          if negb (String.eqb text "") then
            (* quality_assessment.get('meets_financial_standards', True) *)
            let meets :=
              match quality e with
              | Some qa => meets_financial_standards qa
              | None => true
              end in
            if meets then [text] else [text ++ warning]
          else original_rag_response r
      | _, _ => original_rag_response r
      end
  | None => original_rag_response r
  end.

End Grader.

(** ** The controller: [services/iterative_analysis_service.py] *)

Module Controller.

Local Open Scope list_scope.

(** The places where [should_cancel()] is polled. *)
Inductive cancel_point :=
| BeforeInitial
| BeforeEvaluation (iteration : nat)
| DuringRag (iteration index : nat)
| BeforeRefinement (iteration : nat)
| AfterLoop.

(** The collaborators of [run_iterative_analysis].  The four phase
    methods wrap one LLM call each and always return (a dict, or for the
    query generator a list); a failed or unparsable call is a dict with an
    ['error'] key.  They take the iteration number, so that two calls with
    equal arguments may answer differently.  [should_cancel] is taken
    not to raise.  [now n] is the clock read when the history holds [n]
    records. *)
Record env := mkEnv {
  openai_client : bool;
  get_document_summaries : option string -> list dict;
  generate_initial_analysis : string -> list dict -> dict;
  question_analysis_completeness : nat -> dict -> string -> dict;
  generate_targeted_rag_queries : nat -> dict -> list dict -> list pyval;
  execute_function : nat -> nat -> pyval -> string -> dict;
  refine_analysis_with_rag_results : nat -> dict -> list dict -> string -> dict;
  should_cancel : option (cancel_point -> bool);
  now : nat -> string
}.

(** [self.max_iterations = 10  # Prevent infinite loops] *)
Definition max_iterations : nat := 10.

(** [should_cancel and should_cancel()] *)
Definition cancelled (E : env) (p : cancel_point) : bool :=
  match should_cancel E with
  | Some f => f p
  | None => false
  end.

Definition len {A} (l : list A) : Z := Z.of_nat (length l).

(** The four kinds of history record, as the loop writes them. *)
Definition initial_record (timestamp : string) (analysis : dict) : dict :=
  [ ("iteration", PInt 0); ("type", PStr "initial_analysis");
    ("timestamp", PStr timestamp); ("analysis", PDict analysis) ].

Definition evaluation_record (iteration : nat) (timestamp : string)
    (evaluation : dict) (completeness_score is_complete : pyval) : dict :=
  [ ("iteration", PInt (Z.of_nat iteration)); ("type", PStr "evaluation");
    ("timestamp", PStr timestamp); ("evaluation", PDict evaluation);
    ("completeness_score", completeness_score); ("is_complete", is_complete) ].

Definition rag_queries_record (iteration : nat) (timestamp : string)
    (rag_queries : list pyval) (rag_results : list dict) : dict :=
  [ ("iteration", PInt (Z.of_nat iteration)); ("type", PStr "rag_queries");
    ("timestamp", PStr timestamp); ("queries", PList rag_queries);
    ("results", PList (map PDict rag_results)) ].

Definition refined_record (iteration : nat) (timestamp : string) (analysis : dict) : dict :=
  [ ("iteration", PInt (Z.of_nat iteration)); ("type", PStr "refined_analysis");
    ("timestamp", PStr timestamp); ("analysis", PDict analysis) ].

(** [h['type'] == tag] *)
Definition has_type (tag : string) (h : dict) : bool :=
  Py.eq_str (Py.get "type" h) tag.

(** [len(h.get('queries', []))]; the loop always stores a list there. *)
Definition queries_len (h : dict) : Z :=
  match Py.get_default "queries" (PList []) h with
  | PList l => len l
  | _ => 0
  end.

(** [sum(len(h.get('queries', [])) for h in iteration_history if h['type'] == 'rag_queries')] *)
Definition total_rag_queries (iteration_history : list dict) : Z :=
  fold_right Z.add 0 (map queries_len (List.filter (has_type "rag_queries") iteration_history)).

(** [len([h for h in iteration_history if h['type'] == 'evaluation'])] *)
Definition count_evaluations (iteration_history : list dict) : Z :=
  len (List.filter (has_type "evaluation") iteration_history).

(** [_get_final_completeness_score]: scan [reversed(iteration_history)]. *)
Fixpoint first_evaluation_score (reversed_history : list dict) : pyval :=
  match reversed_history with
  | [] => PFloat 0
  | iteration :: rest =>
      if Py.eq_str (Py.get "type" iteration) "evaluation"
      then Py.get_default "completeness_score" (PFloat 0) iteration
      else first_evaluation_score rest
  end.

Definition _get_final_completeness_score (iteration_history : list dict) : pyval :=
  first_evaluation_score (rev iteration_history).

(** The locals the loop mutates, and the keyword arguments of each
    [update_analysis_progress] call so far (oldest first). *)
Record loop_state := mkState {
  current_analysis : dict;
  iteration_history : list dict;
  progress_log : list dict
}.

(** How one pass through the loop body ends. *)
Inductive flow :=
| Continue (st : loop_state)
| Break (st : loop_state)
| Raised (e : exn) (st : loop_state).

Definition history_value (h : list dict) : pyval := PList (map PDict h).

(** The inner [for rag_query in rag_queries] loop; its [break] leaves
    only this loop. *)
Fixpoint execute_rag_queries (E : env) (iteration index : nat)
    (rag_queries : list pyval) (rag_results : list dict) : list dict :=
  match rag_queries with
  | [] => rag_results
  | rag_query :: rest =>
      if cancelled E (DuringRag iteration index) then rag_results
      else execute_rag_queries E iteration (S index) rest
             (rag_results ++ [execute_function E iteration index rag_query "graph"])
  end.

(** The body of [for iteration in range(1, self.max_iterations + 1)]. *)
Definition loop_body (E : env) (query : string) (document_summaries : list dict)
    (iteration : nat) (st : loop_state) : flow :=
  if cancelled E (BeforeEvaluation iteration) then Break st
  else
    let evaluation :=
      question_analysis_completeness E iteration (current_analysis st) query in
    if Py.has_key "error" evaluation then Break st
    else
      let is_complete := Py.get_default "is_analysis_complete" (PBool false) evaluation in
      let completeness_score := Py.get_default "completeness_score" (PInt 0) evaluation in
      let history1 :=
        iteration_history st ++
        [evaluation_record iteration (now E (length (iteration_history st)))
           evaluation completeness_score is_complete] in
      let log1 :=
        progress_log st ++
        [[ ("total_iterations", PInt (Z.of_nat iteration));
           ("final_completeness_score", completeness_score);
           ("iteration_history", history_value history1) ]] in
      let st1 := mkState (current_analysis st) history1 log1 in
      (* if is_complete or completeness_score >= 7: break *)
      match (if Py.truthy is_complete then Ok true
             else Py.ge completeness_score (PInt 7)) with
      | Raise e => Raised e st1
      | Ok true => Break st1
      | Ok false =>
          let rag_queries :=
            generate_targeted_rag_queries E iteration evaluation document_summaries in
          match rag_queries with
          | [] => Break st1
          | _ :: _ =>
              let rag_results := execute_rag_queries E iteration 0 rag_queries [] in
              let history2 :=
                history1 ++
                [rag_queries_record iteration (now E (length history1))
                   rag_queries rag_results] in
              let log2 :=
                log1 ++
                [[ ("rag_queries_executed", PInt (total_rag_queries history2));
                   ("iteration_history", history_value history2) ]] in
              let st2 := mkState (current_analysis st) history2 log2 in
              if cancelled E (BeforeRefinement iteration) then Break st2
              else
                let refined_analysis :=
                  refine_analysis_with_rag_results E iteration
                    (current_analysis st) rag_results query in
                if negb (Py.has_key "error" refined_analysis) then
                  let history3 :=
                    history2 ++
                    [refined_record iteration (now E (length history2)) refined_analysis] in
                  Continue
                    (mkState refined_analysis history3
                       (log2 ++ [[ ("final_analysis", PDict refined_analysis);
                                   ("iteration_history", history_value history3) ]]))
                else Break st2
          end
      end.

(** The [for] loop over the iteration numbers still to run. *)
Fixpoint run_loop (E : env) (query : string) (document_summaries : list dict)
    (iterations : list nat) (st : loop_state) : flow :=
  match iterations with
  | [] => Continue st
  | iteration :: rest =>
      match loop_body E query document_summaries iteration st with
      | Continue st' => run_loop E query document_summaries rest st'
      | Break st' => Break st'
      | Raised e st' => Raised e st'
      end
  end.

(** The dict returned after the loop ([final_results], with the two keys
    added on cancellation). *)
Record final_results := mkFinal {
  fr_query : string;
  fr_company_filter : option string;
  fr_final_analysis : dict;
  fr_total_iterations : Z;
  fr_documents_analyzed : Z;
  fr_iteration_history : list dict;
  fr_completed_timestamp : string;
  fr_final_completeness_score : pyval;
  fr_improvement_achieved : bool;
  fr_rag_queries_executed : Z;
  fr_cancelled : bool;
  fr_termination_reason : option string
}.

(** The shapes of dict [run_iterative_analysis] returns. *)
Inductive run_result :=
| NotConfigured
| NoDocuments (query : string) (company_filter : option string)
| CancelledBeforeStart (documents_analyzed : Z)
| InitialAnalysisFailed (current_analysis : dict)
| Finished (r : final_results)
| PartialResults (error : string) (final_analysis : dict)
    (iteration_history : list dict) (total_iterations documents_analyzed : Z).

(** [run_iterative_analysis(self, query, company_filter, should_cancel, analysis_id)]:
    the returned dict, and the keyword arguments of the
    [update_analysis_progress] calls made on the way. *)
Definition run (E : env) (query : string) (company_filter : option string)
    : run_result * list dict :=
  if negb (openai_client E) then (NotConfigured, [])
  else
    let document_summaries := get_document_summaries E company_filter in
    match document_summaries with
    | [] => (NoDocuments query company_filter, [])
    | _ :: _ =>
        let log0 := [[ ("documents_analyzed", PInt (len document_summaries)) ]] in
        if cancelled E BeforeInitial
        then (CancelledBeforeStart (len document_summaries), log0)
        else
          let initial := generate_initial_analysis E query document_summaries in
          if Py.has_key "error" initial
          then (InitialAnalysisFailed initial, log0)
          else
            let history0 := [initial_record (now E 0%nat) initial] in
            let st0 :=
              mkState initial history0
                (log0 ++ [[ ("iteration_history", history_value history0);
                            ("final_analysis", PDict initial) ]]) in
            match run_loop E query document_summaries (seq 1 max_iterations) st0 with
            | Raised e st =>
                (PartialResults (exn_msg e) (current_analysis st) (iteration_history st)
                   (len (iteration_history st)) (len document_summaries),
                 progress_log st)
            | Continue st | Break st =>
                let is_cancelled := cancelled E AfterLoop in
                (Finished
                   (mkFinal query company_filter (current_analysis st)
                      (count_evaluations (iteration_history st))
                      (len document_summaries)
                      (iteration_history st)
                      (now E (length (iteration_history st)))
                      (_get_final_completeness_score (iteration_history st))
                      true
                      (total_rag_queries (iteration_history st))
                      is_cancelled
                      (if is_cancelled then Some "User cancelled analysis" else None)),
                 progress_log st)
            end
    end.

Definition run_iterative_analysis (E : env) (query : string)
    (company_filter : option string) : run_result :=
  fst (run E query company_filter).

(** [result.get('iteration_history')] *)
Definition result_history (r : run_result) : option (list dict) :=
  match r with
  | CancelledBeforeStart _ => Some []
  | Finished fr => Some (fr_iteration_history fr)
  | PartialResults _ _ h _ _ => Some h
  | _ => None
  end.

(** [result['analysis_quality']['final_completeness_score']], where present. *)
Definition result_final_completeness_score (r : run_result) : option pyval :=
  match r with
  | CancelledBeforeStart _ => Some (PInt 0)
  | Finished fr => Some (fr_final_completeness_score fr)
  | _ => None
  end.

(** The helper [update_analysis_progress] nested in
    [run_iterative_analysis], when an [analysis_id] is given and the row
    exists: load the row, call [update_progress] on that instance. *)
Definition update_analysis_progress (row : Job.IterativeAnalysis) (kwargs : dict)
    : Job.IterativeAnalysis :=
  snd (Job.update_progress row row kwargs).

(** The stored row after the progress updates of a run, oldest first. *)
Definition stored_after (row : Job.IterativeAnalysis) (log : list dict)
    : Job.IterativeAnalysis :=
  fold_left update_analysis_progress log row.

Definition flow_state (f : flow) : loop_state :=
  match f with
  | Continue st | Break st | Raised _ st => st
  end.

(** *** Notions used to state the properties of a run *)

(** The two values the loop reads from a parsed evaluation. *)
Definition score_of (evaluation : dict) : pyval :=
  Py.get_default "completeness_score" (PInt 0) evaluation.
Definition complete_of (evaluation : dict) : pyval :=
  Py.get_default "is_analysis_complete" (PBool false) evaluation.

(** [is_analysis_complete] is true, or [completeness_score >= 7]. *)
Definition says_complete (evaluation : dict) : Prop :=
  Py.truthy (complete_of evaluation) = true
  \/ Py.ge (score_of evaluation) (PInt 7) = Ok true.

(** [is_analysis_complete] is false and [completeness_score < 7]. *)
Definition says_incomplete (evaluation : dict) : Prop :=
  Py.truthy (complete_of evaluation) = false
  /\ Py.ge (score_of evaluation) (PInt 7) = Ok false.

(** A history record that is not an evaluation asking to stop. *)
Definition quiet (r : dict) : Prop :=
  forall evaluation,
    has_type "evaluation" r = true ->
    Py.lookup "evaluation" r = Some (PDict evaluation) ->
    ~ says_complete evaluation.

(** An evaluation record carries its score. *)
Definition scored (r : dict) : Prop :=
  has_type "evaluation" r = true ->
  exists s, Py.lookup "completeness_score" r = Some s.

(** The loop is reached: the client is configured, there are documents,
    and the initial analysis has no ['error'] key. *)
Definition reaches_loop (E : env) (query : string) (company_filter : option string) : Prop :=
  openai_client E = true
  /\ get_document_summaries E company_filter <> []
  /\ Py.has_key "error"
       (generate_initial_analysis E query (get_document_summaries E company_filter)) = false.

(** Every evaluation comes back without an ['error'] key, not complete and
    with a score below 7; every query generation yields a query; every
    refinement comes back without an ['error'] key. *)
Definition never_satisfied (E : env) (query : string) (company_filter : option string) : Prop :=
  (forall iteration analysis,
      let e := question_analysis_completeness E iteration analysis query in
      Py.has_key "error" e = false /\ says_incomplete e)
  /\ (forall iteration evaluation,
        generate_targeted_rag_queries E iteration evaluation
          (get_document_summaries E company_filter) <> [])
  /\ (forall iteration analysis rag_results,
        Py.has_key "error"
          (refine_analysis_with_rag_results E iteration analysis rag_results query) = false).

(** [should_cancel] is absent or answers [False] at every poll. *)
Definition never_cancelled (E : env) : Prop :=
  forall p, cancelled E p = false.

(** A history entry other than a dict tagged ['refined_analysis']. *)
Definition not_refined (v : pyval) : bool :=
  match v with
  | PDict d => negb (has_type "refined_analysis" d)
  | _ => true
  end.

(** In the words of the specification: the last record of type
    [evaluation] in the history. *)
Definition last_evaluation (iteration_history : list dict) : option dict :=
  last (List.filter (has_type "evaluation") iteration_history).

End Controller.

(** ** Registry, RAG gateway and search cache: [services/cognee_service.py] *)

Module Cognee.

Local Open Scope list_scope.

(** Document metadata: a dict with [str] values. *)
Abbreviation metadata := (list (string * string)).

Fixpoint meta_get (k : string) (m : metadata) : option string :=
  match m with
  | [] => None
  | (k', v) :: m' => if String.eqb k k' then Some v else meta_get k m'
  end.

(** [metadata.get(k, '')] *)
Definition meta_get_str (k : string) (m : metadata) : string :=
  match meta_get k m with Some v => v | None => "" end.

Record doc_info := mkDoc {
  doc_fingerprint : string;
  doc_metadata : metadata;
  doc_summary : pyval;
  content_length : Z;
  content_preview : string;
  full_content : string;
  stored_at : string;
  content_hash : string
}.

(** The instance state the modelled methods read and write.
    [_document_registry] is a dict keyed by fingerprint, kept in insertion
    order because [add_document] iterates over it. *)
Record CogneeService := mkService {
  is_configured : bool;
  _search_cache : gmap string (list string);
  _document_registry : list (string * doc_info)
}.

Fixpoint registry_lookup (k : string) (r : list (string * doc_info)) : option doc_info :=
  match r with
  | [] => None
  | (k', v) :: r' => if String.eqb k k' then Some v else registry_lookup k r'
  end.

(** [registry[k] = v] *)
Fixpoint registry_set (k : string) (v : doc_info) (r : list (string * doc_info))
    : list (string * doc_info) :=
  match r with
  | [] => [(k, v)]
  | (k', v') :: r' =>
      if String.eqb k k' then (k, v) :: r' else (k', v') :: registry_set k v r'
  end.

Inductive SearchType := INSIGHTS | CHUNKS | GRAPH_COMPLETION | SUMMARIES.

(** What [_run_async(self._add_document_async(content, metadata))] returns. *)
Record cognee_result := mkCogneeResult {
  cr_success : bool;
  cr_summary : pyval;
  cr_error : option string
}.

(** Calls to the outside, as seen by one method call. *)
Record env := mkEnv {
  add_document_async : string -> metadata -> cognee_result;
  search_context_async : string -> SearchType -> list string;
  (* cognee.prune.prune_data() and the clearing of the data directories *)
  prune_backend : exc unit;
  (* removing and recreating the data and system directories *)
  reset_directories : exc unit;
  now : string
}.

Record existing_document := mkExisting {
  ex_company : option string;
  ex_form_type : option string;
  ex_stored_at : string;
  ex_fingerprint : string
}.

(** The dicts [add_document] returns. *)
Inductive add_result :=
| AddOk (fingerprint : string) (content_length : Z)
| AddDuplicate (reason : string) (existing : existing_document)
| AddError (error : string).

Section Hashing.

(** [hashlib.sha256(s.encode('utf-8')).hexdigest()],
    [hashlib.md5(s.encode()).hexdigest()] and
    [json.dumps(d, sort_keys=True)] on a dict of strings, given as its
    items in key order. *)
Variable sha256_hex : string -> string.
Variable md5_hex : string -> string.
Variable json_dumps : list (string * string) -> string.

(** [_create_document_fingerprint(self, content, metadata)] *)
Definition _create_document_fingerprint (content : string) (m : metadata) : string :=
  let fingerprint_data :=
    [ ("accession_number", meta_get_str "accession_number" m);
      ("company_name", PyStr.lower (meta_get_str "company_name" m));
      ("content_hash", sha256_hex content);
      ("filing_date", meta_get_str "filing_date" m);
      ("form_type", PyStr.lower (meta_get_str "form_type" m)) ] in
  sha256_hex (json_dumps fingerprint_data).

(** The test of the similar-document scan. *)
Definition similar (existing_meta m : metadata) : bool :=
  (String.eqb (PyStr.lower (meta_get_str "company_name" existing_meta))
              (PyStr.lower (meta_get_str "company_name" m))
   && String.eqb (PyStr.lower (meta_get_str "form_type" existing_meta))
                 (PyStr.lower (meta_get_str "form_type" m))
   && bool_decide (meta_get "filing_date" existing_meta = meta_get "filing_date" m))%bool.

Definition show (o : option string) : string :=
  match o with Some s => s | None => "None" end.

(** [add_document(self, content, metadata)]: the returned dict and the
    service afterwards.  Writing the registry file is not modelled; its
    errors are caught inside [_save_document_registry]. *)
Definition add_document (E : env) (self : CogneeService) (content : string) (m : metadata)
    : add_result * CogneeService :=
  if negb (is_configured self)
  then (AddError "Cognee service not configured properly", self)
  else
    let fingerprint := _create_document_fingerprint content m in
    match registry_lookup fingerprint (_document_registry self) with
    | Some existing_doc =>
        (AddDuplicate "Document already exists in registry"
           (mkExisting (meta_get "company_name" (doc_metadata existing_doc))
                       (meta_get "form_type" (doc_metadata existing_doc))
                       (stored_at existing_doc)
                       fingerprint),
         self)
    | None =>
        match find (fun kv => similar (doc_metadata (snd kv)) m) (_document_registry self) with
        | Some (existing_fingerprint, info) =>
            let existing_meta := doc_metadata info in
            (AddDuplicate
               ("Similar document exists: " ++ show (meta_get "company_name" existing_meta)
                ++ " " ++ show (meta_get "form_type" existing_meta)
                ++ " from " ++ show (meta_get "filing_date" existing_meta))%string
               (mkExisting (meta_get "company_name" existing_meta)
                           (meta_get "form_type" existing_meta)
                           (stored_at info)
                           existing_fingerprint),
             self)
        | None =>
            let result := add_document_async E content m in
            if cr_success result then
              let info :=
                mkDoc fingerprint m (cr_summary result)
                      (Z.of_nat (String.length content))
                      (PyStr.take 2000 content) content (now E)
                      (sha256_hex content) in
              (AddOk fingerprint (Z.of_nat (String.length content)),
               mkService (is_configured self) (_search_cache self)
                         (registry_set fingerprint info (_document_registry self)))
            else
              (AddError ("Failed to add document to Cognee RAG: "
                         ++ match cr_error result with
                            | Some e => e
                            | None => "Unknown error"
                            end)%string,
               self)
        end
    end.

(** [_create_cache_key(self, query, search_type)] *)
Definition _create_cache_key (query search_type : string) : string :=
  md5_hex (query ++ ":" ++ search_type)%string.

(** [search_type_map.get(search_type.lower(), SearchType.GRAPH_COMPLETION)] *)
Definition map_search_type (search_type : string) : SearchType :=
  let t := PyStr.lower search_type in
  if String.eqb t "insights" then INSIGHTS
  else if String.eqb t "chunks" then CHUNKS
  else if String.eqb t "summaries" then SUMMARIES
  else GRAPH_COMPLETION.

(** [search_context(self, query, search_type)]: the results and the
    service afterwards. *)
Definition search_context (E : env) (self : CogneeService) (query search_type : string)
    : list string * CogneeService :=
  if negb (is_configured self) then ([], self)
  else
    let cache_key := _create_cache_key query search_type in
    match _search_cache self !! cache_key with
    | Some cached => (cached, self)
    | None =>
        let results := search_context_async E query (map_search_type search_type) in
        (results,
         mkService (is_configured self)
                   (<[cache_key := results]> (_search_cache self))
                   (_document_registry self))
    end.

(** [_prune_data_async(self)]: everything before
    [self._document_registry.clear()] is an outside call. *)
Definition _prune_data_async (E : env) (self : CogneeService) : bool * CogneeService :=
  match prune_backend E with
  | Ok _ => (true, mkService (is_configured self) (_search_cache self) [])
  | Raise _ => (false, self)
  end.

(** [prune_data(self)] *)
Definition prune_data (E : env) (self : CogneeService) : bool * CogneeService :=
  if negb (is_configured self) then (false, self)
  else _prune_data_async E self.

(** [complete_reset(self)] *)
Definition complete_reset (E : env) (self : CogneeService) : bool * CogneeService :=
  match reset_directories E with
  | Ok _ => (true, mkService (is_configured self) ∅ [])
  | Raise _ => (false, self)
  end.

End Hashing.

End Cognee.

(* ================================================================== *)
(** * Example runs                                                     *)
(* ================================================================== *)

(** Concrete services, oracles and inputs used to exercise the
    definitions. *)

Module GraderExamples.

Import Grader.

Definition dq : string := String (ascii_of_nat 34) EmptyString.

Definition svc : service := mkService true true.

Definition stamp : nat -> string := fun _ => "2025-08-09T12:00:00".

Definition decode_error : exn :=
  Exn "JSONDecodeError" "Expecting value: line 1 column 1 (char 0)".

Definition user_query : string := "What is Apple's current revenue growth rate?".
Definition rag_answer : list string := ["Apple is a tech company."].

(** The grader answers in prose, which is not JSON. *)
Definition env_prose : env :=
  mkEnv (fun _ _ => Ok (Some "The response is too vague."))
        (fun _ => Raise decode_error)
        (fun _ => Ok (Some ""))
        stamp.

(** The grading call fails. *)
Definition env_down : env :=
  mkEnv (fun _ _ => Raise (Exn "ConnectionError" "connection refused"))
        (fun _ => Raise decode_error)
        (fun _ => Raise (Exn "ConnectionError" "connection refused"))
        stamp.

Definition failed_verdict_text : string :=
  "{" ++ dq ++ "validation_passed" ++ dq ++ ": false}".
Definition failed_verdict : pyval := PDict [("validation_passed", PBool false)].

Definition web_text : string :=
  "According to Reuters, Apple reported revenue of $94.9 billion for the fiscal quarter ended September 28, 2024, up 6% from the prior year.".

(** The grader rejects the RAG answer and the web search answers [text]. *)
Definition env_web (text : string) : env :=
  mkEnv (fun _ _ => Ok (Some failed_verdict_text))
        (fun _ => Ok failed_verdict)
        (fun _ => Ok (Some text))
        stamp.

End GraderExamples.

Module ControllerExamples.

Import Controller.

(** A clock that advances one second per history record. *)
Definition digit (n : nat) : string := String (ascii_of_nat (48 + n)) EmptyString.
Definition clock (n : nat) : string :=
  "2025-08-09T12:00:" ++ digit (n / 10) ++ digit (n mod 10).

Definition apple_summary : dict :=
  [ ("fingerprint", PStr "3f2a9c1e"); ("company_name", PStr "Apple Inc.");
    ("form_type", PStr "10-K"); ("filing_date", PStr "2024-11-01") ].

Definition draft : dict :=
  [ ("executive_summary", PStr "Initial draft."); ("recommendation", PStr "Hold") ].

Definition refined (iteration : nat) : dict :=
  [ ("executive_summary", PStr ("Refined in iteration " ++ digit iteration ++ "."));
    ("recommendation", PStr "Buy") ].

Definition evaluation_with (score : Z) (complete : bool) : dict :=
  [ ("overall_assessment", PStr "Fair"); ("completeness_score", PInt score);
    ("is_analysis_complete", PBool complete) ].

Definition three_queries : list pyval :=
  [ PStr "Apple revenue by segment"; PStr "Apple gross margin trend";
    PStr "Apple risk factors" ].

Definition rag_result (rag_query : pyval) : dict :=
  [ ("query", rag_query); ("results", PList [PStr "Net sales rose."]) ].

Definition investment_query : string :=
  "Analyze Apple Inc's investment potential based on recent filings".

(** The collaborators, with the evaluation scores given per iteration
    and an optional cancellation signal. *)
Definition env_with (score : nat -> Z) (cancel : option (cancel_point -> bool)) : env :=
  mkEnv true
        (fun _ => [apple_summary])
        (fun _ _ => draft)
        (fun iteration _ _ => evaluation_with (score iteration) false)
        (fun _ _ _ => three_queries)
        (fun _ _ rag_query _ => rag_result rag_query)
        (fun iteration _ _ _ => refined iteration)
        cancel
        clock.

(** Score 5 at the first evaluation, 8 at the second. *)
Definition env_one_refinement : env :=
  env_with (fun iteration => if Nat.eqb iteration 1 then 5 else 8) None.

(** Score 7 at the first evaluation. *)
Definition env_score_seven : env := env_with (fun _ => 7) None.

(** Score 4 at every evaluation. *)
Definition env_always_four : env := env_with (fun _ => 4) None.

(** The user cancels once the first iteration is over. *)
Definition cancel_after_first (p : cancel_point) : bool :=
  match p with
  | BeforeInitial => false
  | BeforeEvaluation n | DuringRag n _ | BeforeRefinement n => Nat.leb 2 n
  | AfterLoop => true
  end.

Definition env_cancelled : env := env_with (fun _ => 4) (Some cancel_after_first).

(** The job row after the one-refinement run was stored. *)
Definition job_with_history (h : list dict) : Job.IterativeAnalysis :=
  Job.mkJob investment_query None PNone (history_value h) true
            (PInt 0) (PInt 1) (PInt 0) (PFloat 0)
            "2025-08-09T11:59:00" None Job.CANCELLED None.

End ControllerExamples.

Module CogneeExamples.

Import Cognee.

(** Stand-ins for the digests: the text itself.  They keep distinct
    inputs distinct, which is all the examples use. *)
Definition plain_digest (s : string) : string := s.
Definition plain_dumps (items : list (string * string)) : string :=
  String.concat ";" (map (fun kv => fst kv ++ "=" ++ snd kv) items).

Definition apple_10k : metadata :=
  [ ("company_name", "Apple Inc."); ("form_type", "10-K");
    ("filing_date", "2024-11-01"); ("ticker", "AAPL");
    ("accession_number", "0000320193-24-000123") ].

Definition apple_content : string := "Net sales were $391.0 billion in fiscal 2024.".

Definition env_ok : env :=
  mkEnv (fun _ _ => mkCogneeResult true (PDict [("executive_summary", PStr "Annual report.")]) None)
        (fun _ _ => ["fresh answer"])
        (Ok tt) (Ok tt)
        "2025-08-09T12:00:00".

Definition empty_service : CogneeService := mkService true ∅ [].

(** A service whose cache holds an answer for one search. *)
Definition cached_service : CogneeService :=
  mkService true
    {[ _create_cache_key plain_digest "Apple revenue" "graph" := ["stale answer"] ]}
    [].

End CogneeExamples.

(* ================================================================== *)
(** * Part II: properties                                              *)
(* ================================================================== *)

(** ** The job row *)

Section JobProperties.

Import Job.

Lemma assign_if_present_lifecycle key kwargs setter st :
  (forall v j, lifecycle_columns (setter v j) = lifecycle_columns j) ->
  lifecycle_columns (fst (assign_if_present key kwargs setter st)) = lifecycle_columns (fst st).
Proof.
  intros Hsetter. unfold assign_if_present.
  destruct (Py.lookup key kwargs); simpl; [apply Hsetter | reflexivity].
Qed.

Lemma save_update_fields_lifecycle self row :
  lifecycle_columns (save_update_fields self row) = lifecycle_columns row.
Proof. reflexivity. Qed.

Lemma update_progress_lifecycle (self row : IterativeAnalysis) (kwargs : dict) :
  lifecycle_columns (fst (update_progress self row kwargs)) = lifecycle_columns self
  /\ lifecycle_columns (snd (update_progress self row kwargs)) = lifecycle_columns row.
Proof.
  unfold update_progress.
  set (st6 := assign_if_present "final_analysis" _ _ _).
  assert (Hself : lifecycle_columns (fst st6) = lifecycle_columns self).
  { subst st6.
    repeat (rewrite assign_if_present_lifecycle; [| intros; reflexivity]).
    reflexivity. }
  destruct st6 as [self' updated]. simpl in Hself.
  destruct updated; simpl; split; auto using save_update_fields_lifecycle.
Qed.

(** C10. Whatever keyword arguments [update_progress] is called with,
    the instance and the stored row keep their status, error message,
    cancel flag, creation and completion time (and query and company
    filter): only the six progress columns can change. *)
Theorem update_progress_keeps_lifecycle (self row : IterativeAnalysis) (kwargs : dict) :
  let '(self', row') := update_progress self row kwargs in
  status self' = status self /\ error_message self' = error_message self /\
  cancel_requested self' = cancel_requested self /\
  created_at self' = created_at self /\ completed_at self' = completed_at self /\
  status row' = status row /\ error_message row' = error_message row /\
  cancel_requested row' = cancel_requested row /\
  created_at row' = created_at row /\ completed_at row' = completed_at row /\
  lifecycle_columns self' = lifecycle_columns self /\
  lifecycle_columns row' = lifecycle_columns row.
Proof.
  destruct (update_progress_lifecycle self row kwargs) as [Hself Hrow].
  destruct (update_progress self row kwargs) as [self' row'].
  cbn [fst snd] in Hself, Hrow.
  pose proof Hself as Hself'. pose proof Hrow as Hrow'.
  unfold lifecycle_columns in Hself', Hrow'.
  injection Hself' as _ _ Hc Hcr Hco Hs He.
  injection Hrow' as _ _ Hc' Hcr' Hco' Hs' He'.
  repeat split; assumption.
Qed.

(** The progress updates of a whole run, applied one after the other,
    leave the lifecycle columns of the stored row alone. *)
Lemma stored_after_lifecycle (log : list dict) (row : IterativeAnalysis) :
  lifecycle_columns (Controller.stored_after row log) = lifecycle_columns row.
Proof.
  revert row. induction log as [| kwargs log IH]; intros row; [reflexivity |].
  cbn [Controller.stored_after fold_left]. fold (Controller.stored_after).
  etransitivity; [apply IH |].
  apply (update_progress_lifecycle row row kwargs).
Qed.

End JobProperties.

(** ** The grader *)

Section GraderProperties.

Import Grader.

(** C7. The quality score of an augmentation text is the mean of the five
    indicators, the length indicator is [100 < len < 2000], and the text
    meets the financial standards exactly when it has specific data, has
    an appropriate length, is not a bare disclaimer, and scores at least
    0.6. *)
Theorem quality_score_is_mean_and_standards (now search_response query : string) :
  let qa := _validate_financial_search_quality now search_response query in
  (quality_score qa ==
     (b2q (has_sources search_response) + b2q (has_specific_data search_response)
      + b2q (has_timeframe search_response) + b2q (appropriate_length search_response)
      + b2q (no_disclaimers_only search_response)) / 5)%Q
  /\ (appropriate_length search_response = true <->
        (100 < String.length search_response < 2000)%nat)
  /\ (meets_financial_standards qa = true <->
        has_specific_data search_response = true
        /\ appropriate_length search_response = true
        /\ no_disclaimers_only search_response = true
        /\ (6 # 10 <= quality_score qa)%Q).
Proof.
  cbv zeta.
  unfold _validate_financial_search_quality, quality_indicators.
  cbn [quality_score meets_financial_standards].
  split; [| split].
  - generalize (has_sources search_response) (has_specific_data search_response)
      (has_timeframe search_response) (appropriate_length search_response)
      (no_disclaimers_only search_response).
    intros [] [] [] [] []; vm_compute; reflexivity.
  - unfold appropriate_length.
    rewrite andb_true_iff, !Nat.ltb_lt. reflexivity.
  - unfold meets_standards_of.
    rewrite !andb_true_iff, Qle_bool_iff.
    change (indicator "has_specific_data" _) with (has_specific_data search_response).
    change (indicator "appropriate_length" _) with (appropriate_length search_response).
    change (indicator "no_disclaimers_only" _) with (no_disclaimers_only search_response).
    tauto.
Qed.

(** The three required indicators already give a score of 3/5, so the
    score test never rejects a text that passes them. *)
Lemma required_indicators_reach_score (search_response : string) :
  has_specific_data search_response = true ->
  appropriate_length search_response = true ->
  no_disclaimers_only search_response = true ->
  meets_standards_of (quality_indicators search_response) = true.
Proof.
  intros H1 H2 H3. unfold meets_standards_of, quality_indicators.
  change (indicator "has_specific_data" _) with (has_specific_data search_response).
  change (indicator "appropriate_length" _) with (appropriate_length search_response).
  change (indicator "no_disclaimers_only" _) with (no_disclaimers_only search_response).
  rewrite H1, H2, H3.
  destruct (has_sources search_response), (has_timeframe search_response); reflexivity.
Qed.

(** A text that meets the standards is longer than 100 characters. *)
Lemma meets_standards_nonempty (search_response : string) :
  meets_standards_of (quality_indicators search_response) = true ->
  search_response <> "".
Proof.
  unfold meets_standards_of, quality_indicators.
  change (indicator "appropriate_length" _) with (appropriate_length search_response).
  rewrite !andb_true_iff. intros [[[_ Hlen] _] _] ->. discriminate Hlen.
Qed.

(** *** Stage 1 never raises *)

Lemma partition_of_prefix (sep s : string) :
  PyStr.startswith sep s = true ->
  PyStr.partition sep s = Some (EmptyString, PyStr.drop (String.length sep) s).
Proof.
  unfold PyStr.startswith. intros H.
  destruct s; cbn [PyStr.partition]; rewrite H; reflexivity.
Qed.

Lemma split_1_of_prefix (sep s : string) :
  PyStr.startswith sep s = true -> exists a, PyStr.split_1 sep s = Ok a.
Proof.
  intros H. unfold PyStr.split_1. rewrite (partition_of_prefix _ _ H). eauto.
Qed.

(** The guards [startswith] make both [split(...)[1]] safe. *)
Lemma strip_fences_ok (text : string) : exists t, strip_fences text = Ok t.
Proof.
  unfold strip_fences.
  destruct (PyStr.startswith fence_json text) eqn:Hj.
  - destruct (split_1_of_prefix _ _ Hj) as [a ->]. simpl. eauto.
  - destruct (PyStr.startswith fence text) eqn:Hf.
    + destruct (split_1_of_prefix _ _ Hf) as [a ->]. simpl. eauto.
    + eauto.
Qed.

Lemma validate_rag_response_ok (self : service) (E : env) (query : string)
    (rag_response : list string) :
  exists d, validate_rag_response self E query rag_response = Ok d.
Proof.
  unfold validate_rag_response.
  destruct (negb (is_configured self) || negb (validation_enabled self))%bool; [eauto |].
  unfold try_except.
  destruct (let* response := generate_content E query _ in _) eqn:Hbody; eauto.
Qed.

(** C2. Stage 1 returns a record on every input and never raises.  When
    the grading call answers with a text that [json.loads] rejects, the
    record has [validation_passed = False] and [confidence_score = 0.0];
    when the grading call itself raises, the record has
    [validation_passed = True] and [confidence_score = 0.5]. *)
Theorem validate_rag_response_never_raises (self : service) (E : env) (query : string)
    (rag_response : list string) :
  (exists d, validate_rag_response self E query rag_response = Ok d)
  /\ (forall text t e,
        is_configured self = true -> validation_enabled self = true ->
        generate_content E query (combined_response rag_response) = Ok (Some text) ->
        strip_fences (PyStr.strip text) = Ok t ->
        json_loads E t = Raise e -> exn_class e = "JSONDecodeError" ->
        exists d, validate_rag_response self E query rag_response = Ok d
                  /\ Py.lookup "validation_passed" d = Some (PBool false)
                  /\ Py.lookup "confidence_score" d = Some (PFloat 0))
  /\ (forall e,
        is_configured self = true -> validation_enabled self = true ->
        generate_content E query (combined_response rag_response) = Raise e ->
        exists d, validate_rag_response self E query rag_response = Ok d
                  /\ Py.lookup "validation_passed" d = Some (PBool true)
                  /\ Py.lookup "confidence_score" d = Some (PFloat (1 # 2))).
Proof.
  split; [apply validate_rag_response_ok |]. split.
  - intros text t e Hc Hv Hgen Hstrip Hjson Hcls.
    exists parse_failure_result. split; [| split; reflexivity].
    unfold validate_rag_response. rewrite Hc, Hv. simpl.
    rewrite Hgen. simpl. rewrite Hstrip. simpl. rewrite Hjson. simpl.
    rewrite Hcls. reflexivity.
  - intros e Hc Hv Hgen.
    exists (error_result e). split; [| split; reflexivity].
    unfold validate_rag_response. rewrite Hc, Hv. simpl.
    rewrite Hgen. reflexivity.
Qed.

End GraderProperties.

(** *** Choice of the final answer *)

Section FinalResponse.

Import Grader.

Variable self : service.
Variable E : env.
Variable query : string.
Variable rag_response : list string.

(** What a successful search carries. *)
Lemma search_with_gemini_available (e : search_result) :
  e = search_with_gemini self E query ->
  search_available e = true ->
  exists text,
    response e = Some text
    /\ quality e = Some (_validate_financial_search_quality (clock E 0%nat) text query).
Proof.
  intros -> Ha. unfold search_with_gemini in *.
  destruct (negb (is_configured self) || negb (validation_enabled self))%bool;
    [discriminate Ha |].
  destruct (let* response := search_content E query in text_strip response) as [text | ex];
    [| discriminate Ha].
  exists text. split; reflexivity.
Qed.

(** The fields of a pipeline result. *)
Lemma pipeline_result_shape (r : pipeline_result) :
  validate_and_enhance_rag_response self E query rag_response = Ok r ->
  original_rag_response r = rag_response
  /\ (forall e, enhanced_response r = Some e -> e = search_with_gemini self E query)
  /\ final_source r =
       match enhanced_response r with
       | Some e => if search_available e then "gemini_search" else "rag"
       | None => "rag"
       end.
Proof.
  unfold validate_and_enhance_rag_response.
  destruct (validate_rag_response self E query rag_response) as [d | ex]; [| discriminate].
  simpl. intros [= <-]. simpl. split; [reflexivity |]. split; [| reflexivity].
  destruct (Py.eq_False _); intros e [= <-]. reflexivity.
Qed.

(** C6, as the code has it.  For a pipeline result: when the augmentation
    is present, its search succeeded and its assessment meets the
    standards, the final answer is the augmented text alone and the source
    is the web search; when it fails the standards and its text is not
    empty, the final answer is that text with the warning appended; when
    its text is empty, the final answer is the RAG strings; when there is no
    augmentation or its search did not succeed, the final answer is the
    RAG strings and the source is ["rag"]. *)
Theorem final_response_choice (r : pipeline_result) :
  validate_and_enhance_rag_response self E query rag_response = Ok r ->
  (forall e qa,
      enhanced_response r = Some e -> search_available e = true ->
      quality e = Some qa -> meets_financial_standards qa = true ->
      exists text, response e = Some text
                   /\ get_final_response r = [text]
                   /\ final_source r = "gemini_search")
  /\ (forall e qa text,
      enhanced_response r = Some e -> search_available e = true ->
      quality e = Some qa -> meets_financial_standards qa = false ->
      response e = Some text -> text <> "" ->
      get_final_response r = [text ++ warning])
  /\ (forall e,
      enhanced_response r = Some e -> search_available e = true ->
      response e = Some "" ->
      get_final_response r = rag_response)
  /\ ((enhanced_response r = None
       \/ exists e, enhanced_response r = Some e /\ search_available e = false) ->
      get_final_response r = rag_response /\ final_source r = "rag").
Proof.
  intros Hrun.
  destruct (pipeline_result_shape r Hrun) as (Horig & Hsearch & Hsource).
  repeat split.
  - intros e qa He Ha Hq Hm.
    destruct (search_with_gemini_available e (Hsearch e He) Ha) as (text & Hresp & Hq').
    exists text. rewrite Hq' in Hq. injection Hq as <-.
    cbn [meets_financial_standards _validate_financial_search_quality] in Hm.
    pose proof (meets_standards_nonempty text Hm) as Hne.
    apply String.eqb_neq in Hne.
    split; [exact Hresp |]. split.
    + unfold get_final_response. rewrite He, Ha, Hresp, Hne, Hq'. simpl.
      rewrite Hm. reflexivity.
    + rewrite Hsource, He, Ha. reflexivity.
  - intros e qa text He Ha Hq Hm Hresp Hne.
    apply String.eqb_neq in Hne.
    unfold get_final_response. rewrite He, Ha, Hresp, Hne, Hq. simpl.
    rewrite Hm. reflexivity.
  - intros e He Ha Hresp.
    unfold get_final_response. rewrite He, Ha, Hresp. simpl. exact Horig.
  - destruct H as [Hnone | (e & He & Ha)];
      unfold get_final_response; [rewrite Hnone | rewrite He, Ha]; exact Horig.
  - destruct H as [Hnone | (e & He & Ha)];
      rewrite Hsource; [rewrite Hnone | rewrite He, Ha]; reflexivity.
Qed.

End FinalResponse.

Section GraderWitnesses.

Import Grader GraderExamples.

Lemma validate_rag_response_never_raises_witness :
  (exists d, validate_rag_response svc env_prose user_query rag_answer = Ok d
             /\ Py.lookup "validation_passed" d = Some (PBool false)
             /\ Py.lookup "confidence_score" d = Some (PFloat 0))
  /\ (exists d, validate_rag_response svc env_down user_query rag_answer = Ok d
                /\ Py.lookup "validation_passed" d = Some (PBool true)
                /\ Py.lookup "confidence_score" d = Some (PFloat (1 # 2))).
Proof.
  split.
  - apply (proj1 (proj2 (validate_rag_response_never_raises svc env_prose user_query rag_answer))
             "The response is too vague." "The response is too vague." decode_error);
      reflexivity.
  - apply (proj2 (proj2 (validate_rag_response_never_raises svc env_down user_query rag_answer))
             (Exn "ConnectionError" "connection refused"));
      reflexivity.
Defined.

(** The web text of the augmentation scenario has all five indicators. *)
Example web_text_quality :
  let qa := _validate_financial_search_quality "2025-08-09T12:00:00" web_text user_query in
  (quality_score qa == 1)%Q /\ meets_financial_standards qa = true
  /\ recommendation qa = "use".
Proof. cbv zeta. split; [vm_compute; reflexivity |]. split; vm_compute; reflexivity. Qed.

(** Runs the pipeline on closed arguments and names its result. *)
Ltac run_pipeline svc env q rag r Hrun :=
  destruct (validate_and_enhance_rag_response svc env q rag) as [r | ?] eqn:Hrun;
  [ vm_compute in Hrun; injection Hrun as Hrun; subst r
  | vm_compute in Hrun; discriminate Hrun ].

Lemma final_response_choice_witness :
  exists r text,
    validate_and_enhance_rag_response svc (env_web web_text) user_query rag_answer = Ok r
    /\ get_final_response r = [text]
    /\ final_source r = "gemini_search".
Proof.
  pose proof (final_response_choice svc (env_web web_text) user_query rag_answer) as H.
  run_pipeline svc (env_web web_text) user_query rag_answer r Hrun.
  edestruct (proj1 (H _ eq_refl)) as (text & _ & Hfinal & Hsource);
    [reflexivity | reflexivity | reflexivity | reflexivity |].
  eexists _, text. split; [reflexivity |]. split; assumption.
Defined.

(** C6 as worded fails when the web search succeeds with an empty text.
    The augmentation is present, its search succeeded and it fails the
    standards, yet the final answer is not the augmented text with the
    warning: it is the RAG answer, while the reported source is not
    ["rag"]. *)
Lemma empty_augmentation_escapes_the_cases :
  exists r e qa,
    validate_and_enhance_rag_response svc (env_web "   ") user_query rag_answer = Ok r
    /\ enhanced_response r = Some e
    /\ search_available e = true
    /\ response e = Some ""
    /\ quality e = Some qa
    /\ meets_financial_standards qa = false
    /\ get_final_response r <> ["" ++ warning]
    /\ get_final_response r = rag_answer
    /\ final_source r = "gemini_search"
    /\ final_source r <> "rag".
Proof.
  run_pipeline svc (env_web "   ") user_query rag_answer r Hrun.
  eexists _, _, _. split; [reflexivity |].
  repeat (split; [reflexivity |]).
  split; [discriminate |]. repeat (split; [reflexivity |]). discriminate.
Qed.

End GraderWitnesses.

(** ** The controller *)

Section ControllerProperties.

Import Controller.
Local Open Scope list_scope.

Variable E : env.
Variable query : string.
Variable document_summaries : list dict.

(** *** One pass through the loop body *)

(** What a pass appends to the history, by the way it ends. *)
Lemma loop_body_cases (iteration : nat) (st : loop_state) :
  let h := iteration_history st in
  let e := question_analysis_completeness E iteration (current_analysis st) query in
  let ev := evaluation_record iteration (now E (length h)) e (score_of e) (complete_of e) in
  match loop_body E query document_summaries iteration st with
  | Continue st' =>
      says_incomplete e
      /\ exists queries results ts ts',
           iteration_history st' =
             h ++ [ev; rag_queries_record iteration ts queries results;
                   refined_record iteration ts' (current_analysis st')]
           /\ Py.has_key "error" (current_analysis st') = false
  | Break st' =>
      current_analysis st' = current_analysis st
      /\ (iteration_history st' = h
          \/ iteration_history st' = h ++ [ev]
          \/ (says_incomplete e
              /\ exists queries results ts,
                   iteration_history st' =
                     h ++ [ev; rag_queries_record iteration ts queries results]))
  | Raised _ st' =>
      current_analysis st' = current_analysis st
      /\ ~ says_complete e
      /\ iteration_history st' = h ++ [ev]
  end.
Proof.
  cbv zeta. unfold loop_body.
  destruct (cancelled E (BeforeEvaluation iteration)); [split; [reflexivity | left; reflexivity] |].
  destruct (Py.has_key "error" _); [split; [reflexivity | left; reflexivity] |].
  fold (complete_of (question_analysis_completeness E iteration (current_analysis st) query)).
  fold (score_of (question_analysis_completeness E iteration (current_analysis st) query)).
  set (e := question_analysis_completeness E iteration (current_analysis st) query).
  destruct (Py.truthy (complete_of e)) eqn:Hc.
  { split; [reflexivity | right; left; reflexivity]. }
  destruct (Py.ge (score_of e) (PInt 7)) as [[|] | ex] eqn:Hs.
  - split; [reflexivity | right; left; reflexivity].
  - destruct (generate_targeted_rag_queries E iteration e document_summaries) as [| q0 qs] eqn:Hq.
    { split; [reflexivity | right; left; reflexivity]. }
    destruct (cancelled E (BeforeRefinement iteration)).
    { split; [reflexivity |]. right; right. split; [split; assumption |].
      cbn [iteration_history]. rewrite <- app_assoc. simpl. eauto. }
    destruct (Py.has_key "error" (refine_analysis_with_rag_results _ _ _ _ _)) eqn:Hr;
      cbn [negb].
    + split; [reflexivity |]. right; right. split; [split; assumption |].
      cbn [iteration_history]. rewrite <- app_assoc. simpl. eauto.
    + split; [split; assumption |].
      cbn [iteration_history current_analysis].
      rewrite <- !app_assoc. simpl. eauto 10.
  - split; [reflexivity |]. split; [| reflexivity].
    intros [Ht | Hg]; congruence.
Qed.

(** *** The whole loop *)

Lemma quiet_initial ts a : quiet (initial_record ts a).
Proof. intros e Ht. discriminate Ht. Qed.

Lemma quiet_rag_queries it ts qs rs : quiet (rag_queries_record it ts qs rs).
Proof. intros e Ht. discriminate Ht. Qed.

Lemma quiet_refined it ts a : quiet (refined_record it ts a).
Proof. intros e Ht. discriminate Ht. Qed.

Lemma quiet_evaluation it ts e :
  ~ says_complete e -> quiet (evaluation_record it ts e (score_of e) (complete_of e)).
Proof. intros Hn e' _ He'. cbn in He'. injection He' as <-. exact Hn. Qed.

Lemma says_incomplete_not_complete e : says_incomplete e -> ~ says_complete e.
Proof. intros [Hc Hs] [Hc' | Hs']; congruence. Qed.

Create HintDb quiet.
#[local] Hint Resolve quiet_initial quiet_rag_queries quiet_refined quiet_evaluation
  says_incomplete_not_complete : quiet.

(** However the loop ends, every record of the history is quiet, except
    possibly the very last one. *)
Lemma run_loop_quiet (iterations : list nat) (st : loop_state) :
  Forall quiet (iteration_history st) ->
  exists h0 tail,
    iteration_history (flow_state (run_loop E query document_summaries iterations st))
      = h0 ++ tail
    /\ Forall quiet h0 /\ (length tail <= 1)%nat.
Proof.
  revert st. induction iterations as [| iteration rest IH]; intros st Hq.
  - exists (iteration_history st), []. rewrite app_nil_r. simpl. auto.
  - cbn [run_loop].
    pose proof (loop_body_cases iteration st) as Hb. cbv zeta in Hb.
    destruct (loop_body E query document_summaries iteration st) as [st' | st' | ex st'].
    + destruct Hb as (Hinc & qs & rs & ts & ts' & Hh & _).
      apply IH. rewrite Hh. apply Forall_app. split; [exact Hq |].
      repeat constructor; eauto with quiet.
    + destruct Hb as (_ & [Hh | [Hh | (Hinc & qs & rs & ts & Hh)]]); cbn [flow_state].
      * exists (iteration_history st), []. rewrite app_nil_r, Hh. simpl. auto.
      * eexists (iteration_history st), [_]. rewrite Hh. simpl. auto.
      * eexists (iteration_history st' ), []. rewrite app_nil_r. split; [reflexivity |].
        split; [| simpl; lia]. rewrite Hh. apply Forall_app. split; [exact Hq |].
        repeat constructor; eauto with quiet.
    + destruct Hb as (_ & Hn & Hh). cbn [flow_state].
      exists (iteration_history st' ), []. rewrite app_nil_r. split; [reflexivity |].
      split; [| simpl; lia]. rewrite Hh. apply Forall_app. split; [exact Hq |].
      repeat constructor; eauto with quiet.
Qed.

(** Each pass appends at most one evaluation record. *)
Lemma run_loop_count (iterations : list nat) (st : loop_state) :
  count_evaluations
    (iteration_history (flow_state (run_loop E query document_summaries iterations st)))
  <= count_evaluations (iteration_history st) + len iterations.
Proof.
  revert st. induction iterations as [| iteration rest IH]; intros st.
  - simpl. unfold len. simpl. lia.
  - cbn [run_loop].
    pose proof (loop_body_cases iteration st) as Hb. cbv zeta in Hb.
    assert (Hlen : len (iteration :: rest) = 1 + len rest)
      by (unfold len; cbn [length]; lia).
    rewrite Hlen.
    destruct (loop_body E query document_summaries iteration st) as [st' | st' | ex st'].
    + destruct Hb as (_ & qs & rs & ts & ts' & Hh & _).
      specialize (IH st'). rewrite Hh in IH.
      unfold count_evaluations in *. rewrite List.filter_app in IH.
      unfold len in *. rewrite length_app in IH. cbn in IH. lia.
    + destruct Hb as (_ & [Hh | [Hh | (_ & qs & rs & ts & Hh)]]); cbn [flow_state];
        rewrite Hh; unfold count_evaluations, len; rewrite ?List.filter_app, ?length_app;
        cbn; lia.
    + destruct Hb as (_ & _ & Hh). cbn [flow_state].
      rewrite Hh. unfold count_evaluations, len. rewrite List.filter_app, length_app. cbn. lia.
Qed.

(** A property that the three records a pass writes have is kept by the loop. *)
Lemma run_loop_forall (P : dict -> Prop) :
  (forall it ts e, P (evaluation_record it ts e (score_of e) (complete_of e))) ->
  (forall it ts qs rs, P (rag_queries_record it ts qs rs)) ->
  (forall it ts a, P (refined_record it ts a)) ->
  forall (iterations : list nat) (st : loop_state),
    Forall P (iteration_history st) ->
    Forall P (iteration_history
                (flow_state (run_loop E query document_summaries iterations st))).
Proof.
  intros Pe Pq Pr iterations.
  induction iterations as [| iteration rest IH]; intros st HP; [exact HP |].
  cbn [run_loop].
  pose proof (loop_body_cases iteration st) as Hb. cbv zeta in Hb.
  destruct (loop_body E query document_summaries iteration st) as [st' | st' | ex st'].
  - destruct Hb as (_ & qs & rs & ts & ts' & Hh & _).
    apply IH. rewrite Hh. apply Forall_app. split; [exact HP |]. repeat constructor; auto.
  - destruct Hb as (_ & [Hh | [Hh | (_ & qs & rs & ts & Hh)]]); cbn [flow_state];
      rewrite Hh; [exact HP | |]; apply Forall_app; (split; [exact HP |]);
      repeat constructor; auto.
  - destruct Hb as (_ & _ & Hh). cbn [flow_state]. rewrite Hh.
    apply Forall_app. split; [exact HP |]. repeat constructor; auto.
Qed.

Lemma run_loop_scored (iterations : list nat) (st : loop_state) :
  Forall scored (iteration_history st) ->
  Forall scored (iteration_history
                   (flow_state (run_loop E query document_summaries iterations st))).
Proof.
  apply run_loop_forall.
  - intros it ts e _. cbn. eauto.
  - intros it ts qs rs Ht. discriminate Ht.
  - intros it ts a Ht. discriminate Ht.
Qed.

(** *** The reversed scan finds the last evaluation record *)

Lemma last_evaluation_snoc (h : list dict) (r : dict) :
  last_evaluation (h ++ [r]) =
    if has_type "evaluation" r then Some r else last_evaluation h.
Proof.
  unfold last_evaluation. rewrite List.filter_app. cbn [List.filter].
  destruct (has_type "evaluation" r).
  - apply last_snoc.
  - rewrite app_nil_r. reflexivity.
Qed.

Lemma final_completeness_score_spec (h : list dict) :
  _get_final_completeness_score h =
    match last_evaluation h with
    | Some ev => Py.get_default "completeness_score" (PFloat 0) ev
    | None => PFloat 0
    end.
Proof.
  unfold _get_final_completeness_score.
  induction h as [| r h IH] using rev_ind; [reflexivity |].
  rewrite rev_app_distr, last_evaluation_snoc. cbn [rev app first_evaluation_score].
  unfold has_type. destruct (Py.eq_str (Py.get "type" r) "evaluation");
    [reflexivity | exact IH].
Qed.

Lemma last_evaluation_elem (h : list dict) (ev : dict) :
  last_evaluation h = Some ev -> In ev h /\ has_type "evaluation" ev = true.
Proof.
  unfold last_evaluation. intros Hl.
  apply last_Some in Hl as [l' Hl].
  assert (Hin : In ev (List.filter (has_type "evaluation") h)).
  { rewrite Hl. apply in_or_app. right. left. reflexivity. }
  apply List.filter_In in Hin. exact Hin.
Qed.

End ControllerProperties.

Section ControllerRun.

Import Controller.
Local Open Scope list_scope.

Variable E : env.
Variable query : string.
Variable company_filter : option string.

(** The history of a run that reached the loop is the history the loop
    left. *)
Lemma run_history (h : list dict) :
  result_history (run_iterative_analysis E query company_filter) = Some h ->
  h = []
  \/ exists st0 docs,
       iteration_history st0 = [initial_record (now E 0%nat) (current_analysis st0)]
       /\ h = iteration_history
                (flow_state (run_loop E query docs (seq 1 max_iterations) st0)).
Proof.
  unfold run_iterative_analysis, run.
  destruct (negb (openai_client E)); [discriminate |].
  destruct (get_document_summaries E company_filter) as [| d ds]; [discriminate |].
  destruct (cancelled E BeforeInitial); [cbn; intros [= <-]; left; reflexivity |].
  destruct (Py.has_key "error" _); [discriminate |].
  match goal with
  | |- context [run_loop E query ?docs ?its ?st] =>
      intros Hh; right; exists st, docs; split; [reflexivity |];
      destruct (run_loop E query docs its st); cbn in Hh |- *; congruence
  end.
Qed.

(** C4. In the history of any run, an evaluation record whose parsed
    result has [is_analysis_complete] true or [completeness_score >= 7]
    (7 included) is the last record: no [rag_queries] or [refined_analysis]
    record, nor any other, follows it. *)
Theorem loop_exits_on_complete (h : list dict) (i : nat) (ev evaluation : dict) :
  result_history (run_iterative_analysis E query company_filter) = Some h ->
  h !! i = Some ev ->
  has_type "evaluation" ev = true ->
  Py.lookup "evaluation" ev = Some (PDict evaluation) ->
  says_complete evaluation ->
  S i = length h
  /\ (forall j r, (i < j)%nat -> h !! j = Some r ->
                  has_type "rag_queries" r = false
                  /\ has_type "refined_analysis" r = false).
Proof.
  intros Hrun Hi Ht He Hc.
  assert (Hlast : S i = length h).
  { destruct (run_history h Hrun) as [-> | (st0 & docs & H0 & ->)]; [discriminate Hi |].
    destruct (run_loop_quiet E query docs (seq 1 max_iterations) st0)
      as (h0 & tail & Hh & Hq & Hlen).
    { rewrite H0. repeat constructor. intros e Hty. discriminate Hty. }
    rewrite Hh in Hi |- *. rewrite length_app.
    destruct (decide (i < length h0)%nat) as [Hlt | Hge].
    - rewrite lookup_app_l in Hi by exact Hlt.
      exfalso. rewrite Forall_lookup in Hq. exact (Hq i ev Hi evaluation Ht He Hc).
    - apply lookup_lt_Some in Hi. rewrite length_app in Hi. lia. }
  split; [exact Hlast |].
  intros j r Hj Hr. apply lookup_lt_Some in Hr. lia.
Qed.

(** C9. The final completeness score a run reports is the
    [completeness_score] of the last evaluation record of its history, and
    is 0 when the history has no evaluation record. *)
Theorem final_score_is_last_evaluation (score : pyval) :
  result_final_completeness_score (run_iterative_analysis E query company_filter)
    = Some score ->
  exists h,
    result_history (run_iterative_analysis E query company_filter) = Some h
    /\ match last_evaluation h with
       | Some ev => Py.lookup "completeness_score" ev = Some score
       | None => Py.as_number score = Some 0%Q
       end.
Proof.
  intros Hscore.
  destruct (run_iterative_analysis E query company_filter) as [| | n | | fr |] eqn:Hrun;
    try discriminate Hscore.
  - injection Hscore as <-. exists []. split; reflexivity.
  - injection Hscore as <-. exists (fr_iteration_history fr). split; [reflexivity |].
    assert (Hh : result_history (run_iterative_analysis E query company_filter)
                 = Some (fr_iteration_history fr)) by (rewrite Hrun; reflexivity).
    assert (Hfs : fr_final_completeness_score fr
                  = _get_final_completeness_score (fr_iteration_history fr)).
    { revert Hrun. unfold run_iterative_analysis, run.
      destruct (negb (openai_client E)); [discriminate |].
      destruct (get_document_summaries E company_filter); [discriminate |].
      destruct (cancelled E BeforeInitial); [discriminate |].
      destruct (Py.has_key "error" _); [discriminate |].
      destruct (run_loop _ _ _ _ _); cbn; intros [= <-]; reflexivity. }
    rewrite Hfs, final_completeness_score_spec.
    destruct (last_evaluation (fr_iteration_history fr)) as [ev |] eqn:Hlast;
      [| reflexivity].
    destruct (last_evaluation_elem _ _ Hlast) as [Hin Hty].
    assert (Hsc : Forall scored (fr_iteration_history fr)).
    { destruct (run_history _ Hh) as [-> | (st0 & docs & H0 & ->)]; [constructor |].
      apply run_loop_scored. rewrite H0. repeat constructor.
      intros Hty'. discriminate Hty'. }
    rewrite List.Forall_forall in Hsc.
    destruct (Hsc ev Hin Hty) as [s Hs].
    unfold Py.get_default. rewrite Hs. reflexivity.
Qed.

(** *** The cap *)

(** Under the hypotheses of the capped run a pass runs to its end. *)
Lemma loop_body_never_satisfied (iteration : nat) (st : loop_state) :
  never_satisfied E query company_filter ->
  never_cancelled E ->
  exists st',
    loop_body E query (get_document_summaries E company_filter) iteration st = Continue st'
    /\ count_evaluations (iteration_history st')
       = count_evaluations (iteration_history st) + 1
    /\ exists ts, last (iteration_history st')
                  = Some (refined_record iteration ts (current_analysis st')).
Proof.
  intros (Heval & Hqueries & Hrefine) Hcancel.
  unfold loop_body. rewrite Hcancel.
  destruct (Heval iteration (current_analysis st)) as (Herr & Hc & Hs).
  rewrite Herr. unfold complete_of, score_of in Hc, Hs. rewrite Hc, Hs.
  specialize (Hqueries iteration
                (question_analysis_completeness E iteration (current_analysis st) query)).
  destruct (generate_targeted_rag_queries _ _ _ _) as [| q0 qs]; [contradiction |].
  rewrite Hcancel, Hrefine. cbn [negb].
  eexists. split; [reflexivity |]. cbn [iteration_history current_analysis]. split.
  - unfold count_evaluations, len. rewrite !List.filter_app, !length_app. cbn. lia.
  - eexists. apply last_snoc.
Qed.

Lemma run_loop_never_satisfied (iterations : list nat) (st : loop_state) :
  never_satisfied E query company_filter ->
  never_cancelled E ->
  exists st',
    run_loop E query (get_document_summaries E company_filter) iterations st = Continue st'
    /\ count_evaluations (iteration_history st')
       = count_evaluations (iteration_history st) + len iterations
    /\ forall n, last iterations = Some n ->
         exists ts, last (iteration_history st')
                    = Some (refined_record n ts (current_analysis st')).
Proof.
  intros Hns Hnc. revert st.
  induction iterations as [| iteration rest IH]; intros st.
  - exists st. split; [reflexivity |]. split; [unfold len; simpl; lia | discriminate].
  - destruct (loop_body_never_satisfied iteration st Hns Hnc) as (st1 & Hbody & Hcount & Hlast).
    destruct (IH st1) as (st' & Hloop & Hcount' & Hlast').
    exists st'. cbn [run_loop]. rewrite Hbody. split; [exact Hloop |]. split.
    + rewrite Hcount', Hcount. unfold len. cbn [length]. lia.
    + intros n Hn. destruct rest as [| r rest'].
      * cbn in Hn. injection Hn as <-. cbn in Hloop. injection Hloop as <-. exact Hlast.
      * apply Hlast'. exact Hn.
Qed.

(** C3, as the code has it.  No run holds more than 10 evaluation
    records.  In a run that reaches the loop and is never cancelled, where
    every evaluation comes back parsed, not complete and below 7, every
    query generation yields queries and every refinement comes back parsed,
    the loop ends after exactly 10 evaluations and the result carries the
    analysis of the tenth refinement. *)
Theorem loop_stops_at_cap :
  (forall h, result_history (run_iterative_analysis E query company_filter) = Some h ->
             count_evaluations h <= 10)
  /\ (reaches_loop E query company_filter ->
      never_satisfied E query company_filter ->
      never_cancelled E ->
      exists fr ts,
        run_iterative_analysis E query company_filter = Finished fr
        /\ fr_total_iterations fr = 10
        /\ count_evaluations (fr_iteration_history fr) = 10
        /\ last (fr_iteration_history fr)
           = Some (refined_record 10 ts (fr_final_analysis fr))
        /\ fr_cancelled fr = false).
Proof.
  split.
  - intros h Hh.
    destruct (run_history h Hh) as [-> | (st0 & docs & H0 & ->)]; [discriminate |].
    pose proof (run_loop_count E query docs (seq 1 max_iterations) st0) as Hc.
    rewrite H0 in Hc. exact Hc.
  - intros (Hclient & Hdocs & Hinit) Hns Hnc.
    unfold run_iterative_analysis, run. rewrite Hclient. cbn [negb].
    destruct (get_document_summaries E company_filter) as [| d ds] eqn:Hd;
      [contradiction |].
    rewrite !Hnc, Hinit.
    match goal with
    | |- context [run_loop E query (d :: ds) ?its ?st] =>
        pose proof (run_loop_never_satisfied its st Hns Hnc) as Hrun;
        rewrite Hd in Hrun;
        destruct Hrun as (st' & Hloop & Hcount & Hlast)
    end.
    rewrite Hloop. destruct (Hlast 10%nat eq_refl) as [ts Hts].
    cbn [iteration_history] in Hcount.
    eexists _, ts. cbn. split; [reflexivity |]. cbn.
    repeat split; [rewrite Hcount; reflexivity | rewrite Hcount; reflexivity | exact Hts].
Qed.

End ControllerRun.

Section ControllerWitnesses.

Import Controller ControllerExamples.
Local Open Scope list_scope.

Lemma env_with_reaches_loop score cancel :
  reaches_loop (env_with score cancel) investment_query None.
Proof. repeat split. discriminate. Qed.

Lemma env_with_never_satisfied cancel :
  never_satisfied (env_with (fun _ => 4) cancel) investment_query None.
Proof.
  split; [| split].
  - intros iteration analysis. cbv zeta. repeat split.
  - intros iteration evaluation. discriminate.
  - intros iteration analysis rag_results. reflexivity.
Qed.

Lemma loop_stops_at_cap_witness :
  exists fr ts,
    run_iterative_analysis env_always_four investment_query None = Finished fr
    /\ fr_total_iterations fr = 10
    /\ count_evaluations (fr_iteration_history fr) = 10
    /\ last (fr_iteration_history fr) = Some (refined_record 10 ts (fr_final_analysis fr))
    /\ fr_cancelled fr = false.
Proof.
  apply (proj2 (loop_stops_at_cap env_always_four investment_query None)).
  - repeat split. discriminate.
  - split; [| split].
    + intros iteration analysis. cbv zeta. repeat split.
    + intros iteration evaluation. discriminate.
    + intros iteration analysis rag_results. reflexivity.
  - intros p. reflexivity.
Defined.

(** C3 as worded fails when the user cancels after the first iteration:
    the run reaches the loop, every evaluation is parsed, not complete and
    below 7, every query generation and refinement succeeds, and the run
    ends with one evaluation record, not ten. *)
Lemma cancelled_run_stops_before_cap :
  reaches_loop env_cancelled investment_query None
  /\ never_satisfied env_cancelled investment_query None
  /\ exists fr,
       run_iterative_analysis env_cancelled investment_query None = Finished fr
       /\ count_evaluations (fr_iteration_history fr) = 1
       /\ fr_total_iterations fr = 1
       /\ fr_cancelled fr = true.
Proof.
  split; [apply env_with_reaches_loop |]. split; [apply env_with_never_satisfied |].
  eexists. split; [reflexivity |]. repeat split.
Qed.

(** One refinement: score 5, three queries, refinement, score 8. *)
Example one_refinement_run :
  exists fr,
    run_iterative_analysis env_one_refinement investment_query None = Finished fr
    /\ fr_total_iterations fr = 2
    /\ fr_rag_queries_executed fr = 3
    /\ fr_final_completeness_score fr = PInt 8
    /\ fr_final_analysis fr = refined 1
    /\ map (Py.get "type") (fr_iteration_history fr)
       = [PStr "initial_analysis"; PStr "evaluation"; PStr "rag_queries";
          PStr "refined_analysis"; PStr "evaluation"].
Proof. eexists. split; [reflexivity |]. repeat split. Qed.

(** A first evaluation of exactly 7 ends the run with two records. *)
Example score_seven_run :
  exists fr,
    run_iterative_analysis env_score_seven investment_query None = Finished fr
    /\ fr_total_iterations fr = 1
    /\ fr_rag_queries_executed fr = 0
    /\ map (Py.get "type") (fr_iteration_history fr)
       = [PStr "initial_analysis"; PStr "evaluation"].
Proof. eexists. split; [reflexivity |]. repeat split. Qed.

Lemma loop_exits_on_complete_witness :
  exists h ev,
    result_history (run_iterative_analysis env_score_seven investment_query None) = Some h
    /\ h !! 1%nat = Some ev
    /\ S 1 = length h
    /\ (forall j r, (1 < j)%nat -> h !! j = Some r ->
                    has_type "rag_queries" r = false
                    /\ has_type "refined_analysis" r = false).
Proof.
  eexists _, _. split; [reflexivity |]. split; [reflexivity |].
  eapply (loop_exits_on_complete env_score_seven investment_query None _ 1%nat _
            (evaluation_with 7 false)).
  - reflexivity.
  - reflexivity.
  - reflexivity.
  - reflexivity.
  - right. reflexivity.
Defined.

Lemma final_score_is_last_evaluation_witness :
  exists h,
    result_history (run_iterative_analysis env_one_refinement investment_query None) = Some h
    /\ match last_evaluation h with
       | Some ev => Py.lookup "completeness_score" ev = Some (PInt 8)
       | None => Py.as_number (PInt 8) = Some 0%Q
       end.
Proof.
  apply (final_score_is_last_evaluation env_one_refinement investment_query None (PInt 8)).
  reflexivity.
Defined.

End ControllerWitnesses.

(** ** The job row reads back the controller's history *)

Section LatestIterationAnalysis.

Import Job Controller ControllerExamples.
Local Open Scope list_scope.

(** The scan passes over a record tagged ['refined_analysis']. *)
Lemma scan_latest_skips_refined (d : dict) (rest : list pyval)
    (latest_analysis latest_timestamp : pyval) :
  has_type "refined_analysis" d = true ->
  scan_latest (PDict d :: rest) latest_analysis latest_timestamp
  = scan_latest rest latest_analysis latest_timestamp.
Proof.
  unfold has_type. intros Ht. cbn [scan_latest Py.as_dict Exc.bind].
  destruct (Py.get "type" d) as [| | | | s | |]; try discriminate Ht.
  cbn in Ht. apply String.eqb_eq in Ht. subst s. reflexivity.
Qed.

(** Whatever the history, the records tagged ['refined_analysis'] have no
    part in the answer. *)
Lemma scan_latest_ignores_refined (records : list pyval)
    (latest_analysis latest_timestamp : pyval) :
  scan_latest records latest_analysis latest_timestamp
  = scan_latest (List.filter not_refined records) latest_analysis latest_timestamp.
Proof.
  revert latest_analysis latest_timestamp.
  induction records as [| v rest IH]; intros la lt; [reflexivity |].
  cbn [List.filter].
  destruct (not_refined v) eqn:Hv.
  - cbn [scan_latest].
    destruct (Py.as_dict v) as [d | ex]; cbn [Exc.bind]; [| reflexivity].
    destruct (_ || _)%bool; [| apply IH].
    destruct (if Py.truthy (Py.get "timestamp" d) then _ else _) as [[|] | ex];
      cbn [Exc.bind]; [apply IH | apply IH | reflexivity].
  - destruct v as [| | | | | | d]; try discriminate Hv.
    rewrite scan_latest_skips_refined; [apply IH |].
    cbn in Hv. apply negb_false_iff in Hv. exact Hv.
Qed.

(** C1, on the history of a run with one refinement: the most recent
    analysis record is the refined analysis of iteration 1, written with
    the tag ['refined_analysis']; [get_latest_iteration_analysis] returns
    the initial draft. *)
Theorem latest_iteration_analysis_misses_refinement :
  exists h,
    result_history (run_iterative_analysis env_one_refinement investment_query None) = Some h
    /\ last (List.filter (fun r => has_type "initial_analysis" r
                                   || has_type "refined_analysis" r)%bool h)
       = Some (refined_record 1 (clock 3) (refined 1))
    /\ get_latest_iteration_analysis (job_with_history h) = Ok (PDict draft)
    /\ PDict draft <> PDict (refined 1).
Proof.
  eexists. split; [reflexivity |]. split; [reflexivity |]. split; [reflexivity |].
  discriminate.
Qed.

End LatestIterationAnalysis.

(** ** Registry and search cache *)

Section RegistryProperties.

Import Cognee.
Local Open Scope list_scope.

Variable sha256_hex : string -> string.
Variable md5_hex : string -> string.
Variable json_dumps : list (string * string) -> string.

Lemma registry_lookup_set (k : string) (v : doc_info) (r : list (string * doc_info)) :
  registry_lookup k (registry_set k v r) = Some v.
Proof.
  induction r as [| [k' v'] r IH]; cbn.
  - rewrite String.eqb_refl. reflexivity.
  - destruct (String.eqb k k') eqn:Hk; cbn; rewrite ?String.eqb_refl, ?Hk; auto.
Qed.

Lemma registry_set_fresh_length (k : string) (v : doc_info) (r : list (string * doc_info)) :
  registry_lookup k r = None ->
  length (registry_set k v r) = S (length r).
Proof.
  induction r as [| [k' v'] r IH]; cbn; [reflexivity |].
  destruct (String.eqb k k'); [discriminate |]. intros H. cbn. rewrite IH; auto.
Qed.

(** What a successful insert did. *)
Lemma add_document_ok (E : env) (self self1 : CogneeService) (content : string)
    (m : metadata) (fp : string) (n : Z) :
  add_document sha256_hex json_dumps E self content m = (AddOk fp n, self1) ->
  fp = _create_document_fingerprint sha256_hex json_dumps content m
  /\ is_configured self1 = true
  /\ registry_lookup fp (_document_registry self) = None
  /\ exists info,
       doc_metadata info = m
       /\ _document_registry self1 = registry_set fp info (_document_registry self).
Proof.
  unfold add_document.
  destruct (is_configured self) eqn:Hc; cbn [negb]; [| discriminate].
  destruct (registry_lookup _ (_document_registry self)) eqn:Hl; [discriminate |].
  destruct (find _ (_document_registry self)) as [[fp' info'] |]; [discriminate |].
  destruct (cr_success _); [| discriminate].
  intros [= <- <- <-]. cbn [is_configured _document_registry].
  split; [reflexivity |]. split; [reflexivity |]. split; [exact Hl |].
  eexists. split; [| reflexivity]. reflexivity.
Qed.

(** The second of two identical inserts stops at the fingerprint test. *)
Lemma add_document_again (E1 E2 : env) (self self1 : CogneeService) (content : string)
    (m : metadata) (fp : string) (n : Z) :
  add_document sha256_hex json_dumps E1 self content m = (AddOk fp n, self1) ->
  exists existing,
    add_document sha256_hex json_dumps E2 self1 content m
      = (AddDuplicate "Document already exists in registry" existing, self1)
    /\ ex_fingerprint existing = fp.
Proof.
  intros H. destruct (add_document_ok _ _ _ _ _ _ _ H) as (-> & Hc & _ & info & _ & Hr).
  unfold add_document. rewrite Hc. cbn [negb]. rewrite Hr, registry_lookup_set.
  eexists. split; reflexivity.
Qed.

(** C8, as the code has it.  When the first of two inserts with the same
    content and metadata succeeds, it returns the computed fingerprint; the
    second is rejected by the fingerprint test as a duplicate, with the
    reason text ['Document already exists in registry'], and leaves the
    service as it was; the registry has gained exactly one entry. *)
Theorem add_document_twice (E1 E2 : env) (self self1 : CogneeService) (content : string)
    (m : metadata) (fp : string) (n : Z) :
  add_document sha256_hex json_dumps E1 self content m = (AddOk fp n, self1) ->
  fp = _create_document_fingerprint sha256_hex json_dumps content m
  /\ (exists existing,
        add_document sha256_hex json_dumps E2 self1 content m
          = (AddDuplicate "Document already exists in registry" existing, self1)
        /\ ex_fingerprint existing = fp)
  /\ length (_document_registry self1) = S (length (_document_registry self)).
Proof.
  intros H. split; [| split].
  - apply (add_document_ok _ _ _ _ _ _ _ H).
  - exact (add_document_again E1 E2 _ _ _ _ _ _ H).
  - destruct (add_document_ok _ _ _ _ _ _ _ H) as (_ & _ & Hl & info & _ & ->).
    apply registry_set_fresh_length. exact Hl.
Qed.

(** *** The search cache across [prune_data] and [complete_reset] *)

Lemma prune_data_cache (E : env) (self self' : CogneeService) (ok : bool) :
  prune_data E self = (ok, self') -> _search_cache self' = _search_cache self.
Proof.
  unfold prune_data, _prune_data_async.
  destruct (negb (is_configured self)); [intros [= _ <-]; reflexivity |].
  destruct (prune_backend E); intros [= _ <-]; reflexivity.
Qed.

(** C5, the [prune_data] half, as the code behaves: a successful prune
    leaves the search cache as it was, and a search that was cached before
    is answered from that cache afterwards. *)
Theorem prune_keeps_search_cache (E E' : env) (self self' : CogneeService)
    (query search_type : string) (cached : list string) :
  _search_cache self !! _create_cache_key md5_hex query search_type = Some cached ->
  prune_data E self = (true, self') ->
  _search_cache self' = _search_cache self
  /\ _document_registry self' = []
  /\ search_context md5_hex E' self' query search_type = (cached, self').
Proof.
  intros Hcached Hprune.
  pose proof (prune_data_cache _ _ _ _ Hprune) as Hcache.
  split; [exact Hcache |].
  revert Hprune. unfold prune_data, _prune_data_async.
  destruct (is_configured self) eqn:Hc; cbn [negb]; [| discriminate].
  destruct (prune_backend E); [| discriminate].
  intros [= <-]. split; [reflexivity |].
  unfold search_context. cbn [is_configured _search_cache negb].
  rewrite Hcached. reflexivity.
Qed.

(** The [complete_reset] half holds: a successful reset empties the
    cache, and the next search goes to the store. *)
Lemma complete_reset_clears_cache (E E' : env) (self self' : CogneeService)
    (query search_type : string) :
  complete_reset E self = (true, self') ->
  _search_cache self' = ∅
  /\ (is_configured self = true ->
      fst (search_context md5_hex E' self' query search_type)
      = search_context_async E' query (map_search_type search_type)).
Proof.
  unfold complete_reset. destruct (reset_directories E); [| discriminate].
  intros [= <-]. split; [reflexivity |]. intros Hc.
  unfold search_context. cbn [is_configured _search_cache]. rewrite Hc. cbn [negb].
  rewrite lookup_empty. reflexivity.
Qed.

End RegistryProperties.

Section RegistryWitnesses.

Import Cognee CogneeExamples.
Local Open Scope list_scope.

Lemma add_document_twice_witness :
  exists fp n self1,
    add_document plain_digest plain_dumps env_ok empty_service apple_content apple_10k
      = (AddOk fp n, self1)
    /\ fp = _create_document_fingerprint plain_digest plain_dumps apple_content apple_10k
    /\ (exists existing,
          add_document plain_digest plain_dumps env_ok self1 apple_content apple_10k
            = (AddDuplicate "Document already exists in registry" existing, self1)
          /\ ex_fingerprint existing = fp)
    /\ length (_document_registry self1) = S (length (_document_registry empty_service)).
Proof.
  eexists _, _, _. split; [reflexivity |].
  eapply (add_document_twice plain_digest plain_dumps env_ok env_ok empty_service).
  reflexivity.
Defined.

(** C8 as worded fails on the reason text: no digest functions, services
    and inputs make the second insert answer with the reason
    ['exact fingerprint']. *)
Lemma duplicate_reason_is_not_exact_fingerprint :
  ~ (exists (sha256_hex : string -> string) (json_dumps : list (string * string) -> string)
            (E1 E2 : env) (self self1 : CogneeService) (content : string) (m : metadata)
            (fp : string) (n : Z) (existing : existing_document),
        add_document sha256_hex json_dumps E1 self content m = (AddOk fp n, self1)
        /\ add_document sha256_hex json_dumps E2 self1 content m
           = (AddDuplicate "exact fingerprint" existing, self1)).
Proof.
  intros (sha & json & E1 & E2 & self & self1 & content & m & fp & n & existing & H1 & H2).
  destruct (add_document_again sha json E1 E2 _ _ _ _ _ _ H1) as (existing' & H2' & _).
  rewrite H2' in H2. discriminate H2.
Qed.

Lemma prune_keeps_search_cache_witness :
  exists self',
    prune_data env_ok cached_service = (true, self')
    /\ _search_cache self' = _search_cache cached_service
    /\ _document_registry self' = []
    /\ search_context plain_digest env_ok self' "Apple revenue" "graph"
       = (["stale answer"], self').
Proof.
  eexists. split; [reflexivity |].
  apply (prune_keeps_search_cache plain_digest env_ok env_ok cached_service).
  - apply lookup_singleton_eq.
  - reflexivity.
Defined.

End RegistryWitnesses.
